(** * Parametric stellar populations and AGN templates of synthesizer

    A shallow embedding of [synthesizer/parametric/stars.py] (the binned
    star formation and metal enrichment history, SFZH) and of the
    [Template] model of [synthesizer/emission_models/agn/models.py].

    Numbers are exact rationals extended with the IEEE special values that
    numpy produces instead of raising (a division by zero gives [inf] or
    [nan]); rounding and signed zeros are not modelled.  numpy arrays and
    [Stars] instances are mutable objects: they live in a heap and are
    passed by reference, as in the source. *)

From Stdlib Require Import QArith Qabs Qround ZArith String Lia Lqa.
From stdpp Require Import base list gmap strings.

(** ** Floating point values *)

Inductive npfloat : Type :=
  | Fin (q : Q)
  | PInf
  | NInf
  | NaN.

Definition fzero : npfloat := Fin 0.

Definition is_nan (x : npfloat) : bool :=
  match x with NaN => true | _ => false end.


Definition fneg (x : npfloat) : npfloat :=
  match x with
  | Fin q => Fin (- q)
  | PInf => NInf
  | NInf => PInf
  | NaN => NaN
  end.

Definition fadd (x y : npfloat) : npfloat :=
  match x, y with
  | NaN, _ | _, NaN => NaN
  | Fin a, Fin b => Fin (a + b)
  | PInf, NInf | NInf, PInf => NaN
  | PInf, _ | _, PInf => PInf
  | NInf, _ | _, NInf => NInf
  end.

Definition fsub (x y : npfloat) : npfloat := fadd x (fneg y).

(** The sign of a rational as a comparison with zero. *)
Definition Qsign (q : Q) : comparison := (q ?= 0)%Q.

Definition finf_signed (c : comparison) : npfloat :=
  match c with
  | Gt => PInf
  | Lt => NInf
  | Eq => NaN
  end.

Definition fmul (x y : npfloat) : npfloat :=
  match x, y with
  | NaN, _ | _, NaN => NaN
  | Fin a, Fin b => Fin (a * b)
  | PInf, Fin b | Fin b, PInf => finf_signed (Qsign b)
  | NInf, Fin b | Fin b, NInf => finf_signed (CompOpp (Qsign b))
  | PInf, PInf | NInf, NInf => PInf
  | PInf, NInf | NInf, PInf => NInf
  end.

(** numpy's true division: dividing by zero does not raise, it gives
    [nan] for [0/0] and an infinity otherwise (the zero divisor is taken
    as [+0.0]). *)
Definition fdiv (x y : npfloat) : npfloat :=
  match x, y with
  | NaN, _ | _, NaN => NaN
  | Fin a, Fin b =>
      if Qeq_bool b 0 then finf_signed (Qsign a) else Fin (a / b)
  | Fin _, (PInf | NInf) => Fin 0
  | PInf, Fin b => if Qle_bool 0 b then PInf else NInf
  | NInf, Fin b => if Qle_bool 0 b then NInf else PInf
  | (PInf | NInf), (PInf | NInf) => NaN
  end.

Definition fabs (x : npfloat) : npfloat :=
  match x with
  | Fin q => Fin (Qabs q)
  | PInf | NInf => PInf
  | NaN => NaN
  end.

(** [x >= y] on floats: false as soon as one side is [nan]. *)
Definition fge (x y : npfloat) : bool :=
  match x, y with
  | NaN, _ | _, NaN => false
  | Fin a, Fin b => Qle_bool b a
  | PInf, _ => true
  | _, NInf => true
  | _, _ => false
  end.

(** [x == y] on floats: [nan] differs from everything, itself included. *)
Definition feqb (x y : npfloat) : bool :=
  match x, y with
  | Fin a, Fin b => Qeq_bool a b
  | PInf, PInf | NInf, NInf => true
  | _, _ => false
  end.

(** The same value, up to the representation of the rational. *)
Definition float_equiv (x y : npfloat) : Prop :=
  match x, y with
  | Fin a, Fin b => (a == b)%Q
  | PInf, PInf | NInf, NInf | NaN, NaN => True
  | _, _ => False
  end.

#[global] Instance npfloat_equiv : Equiv npfloat := float_equiv.

(** ** Exceptions and the state monad of the interpreter *)

Inductive exn : Type :=
  | IndexError
  | ValueError
  | OverflowError
  | TypeError
  | InconsistentAddition
  | ShapeMismatch
  | MissingUnits
  | MissingArgument
  | UnimplementedFunctionality.

(** A computation ends normally with a value or raises; either way the
    store it leaves behind is observable. *)
Inductive outcome (St A : Type) : Type :=
  | Ok (a : A) (s : St)
  | Raise (e : exn) (s : St).
Arguments Ok {St A} a s.
Arguments Raise {St A} e s.

Definition M (St A : Type) : Type := St -> outcome St A.

Definition ret {St A} (a : A) : M St A := fun s => Ok a s.

Definition bind {St A B} (m : M St A) (k : A -> M St B) : M St B :=
  fun s =>
    match m s with
    | Ok a s' => k a s'
    | Raise e s' => Raise e s'
    end.

Definition raise {St A} (e : exn) : M St A := fun s => Raise e s.

Declare Scope py_scope.
Delimit Scope py_scope with py.
Notation "x <- m ;; k" := (bind m (fun x => k))
  (at level 100, m at next level, right associativity) : py_scope.
Notation "m ;;; k" := (bind m (fun _ => k))
  (at level 100, right associativity) : py_scope.
Open Scope py_scope.

(** Pure fallible steps (an index out of range, [argmin] of an empty
    array) are lifted into the monad. *)
Definition lift {St A} (r : exn + A) : M St A :=
  fun s => match r with inr a => Ok a s | inl e => Raise e s end.

(** ** numpy arrays *)

(** One dimensional arrays are lists; a two dimensional array keeps its
    number of columns so that the shape of an array without rows is not
    lost ([np.zeros((0, m))]). *)
Record ndarray2 : Type := NdArray2 {
  ncols : nat;
  rows : list (list npfloat)
}.

Definition shape (a : ndarray2) : nat * nat := (length (rows a), ncols a).

Definition shape_eqb (s t : nat * nat) : bool :=
  Nat.eqb (fst s) (fst t) && Nat.eqb (snd s) (snd t).

Definition np_zeros (n : nat) : list npfloat := replicate n fzero.

Definition np_zeros2 (n m : nat) : ndarray2 :=
  NdArray2 m (replicate n (replicate m fzero)).

(** [np.sum] of a one dimensional array. *)
Definition np_sum (l : list npfloat) : npfloat := foldr fadd fzero l.

(** [np.sum(a)], [np.sum(a, axis=1)] and [np.sum(a, axis=0)]. *)
Definition np_sum2 (a : ndarray2) : npfloat := np_sum (concat (rows a)).

Definition np_sum_axis1 (a : ndarray2) : list npfloat := map np_sum (rows a).

Definition np_sum_axis0 (a : ndarray2) : list npfloat :=
  foldr (zip_with fadd) (np_zeros (ncols a)) (rows a).

(** Elementwise operations. *)
Definition np_add2 (a b : ndarray2) : ndarray2 :=
  NdArray2 (ncols a) (zip_with (zip_with fadd) (rows a) (rows b)).

Definition np_map2 (f : npfloat -> npfloat) (a : ndarray2) : ndarray2 :=
  NdArray2 (ncols a) (map (map f) (rows a)).

(** [a[i]] for a non-negative index, and [a[-1]]. *)
Definition getitem (l : list npfloat) (i : nat) : exn + npfloat :=
  match l !! i with
  | Some x => inr x
  | None => inl IndexError
  end.

Definition getitem_last (l : list npfloat) : exn + npfloat :=
  match last l with
  | Some x => inr x
  | None => inl IndexError
  end.


Definition setitem2 (a : ndarray2) (i j : nat) (x : npfloat)
  : exn + ndarray2 :=
  match rows a !! i with
  | Some r =>
      if decide (j < ncols a)%nat
      then inr (NdArray2 (ncols a) (<[i := <[j := x]> r]> (rows a)))
      else inl IndexError
  | None => inl IndexError
  end.

(** [argmin]: the scan of numpy, which keeps the first minimum and stops
    at the first [nan]; an empty array is a [ValueError]. *)
Fixpoint argmin_from (mp : npfloat) (mi i : nat) (l : list npfloat) : nat :=
  match l with
  | [] => mi
  | x :: r =>
      if is_nan mp then mi
      else if fge x mp then argmin_from mp mi (S i) r
      else argmin_from x i (S i) r
  end.

Definition argmin (l : list npfloat) : exn + nat :=
  match l with
  | [] => inl ValueError
  | x :: r => inr (argmin_from x 0 1 r)
  end.

(** [(np.abs(a - x)).argmin()], the index of the entry nearest to [x]. *)
Definition nearest_index (a : list npfloat) (x : npfloat) : exn + nat :=
  argmin (map (fun y => fabs (fsub y x)) a).

(** [int(x)] truncates towards zero and rejects the special values. *)
Definition py_int (x : npfloat) : exn + Z :=
  match x with
  | Fin q => inr (Z.quot (Qnum q) (Z.pos (Qden q)))
  | PInf | NInf => inl OverflowError
  | NaN => inl ValueError
  end.

(** [np.mean([a, b])]. *)
Definition np_mean2 (a b : npfloat) : npfloat := fdiv (fadd a b) (Fin 2).

(** [enumerate]. *)
Definition enumerate {A} (l : list A) : list (nat * A) :=
  zip (seq 0 (length l)) l.

(** [len(set(a)) == 1] for the elements of an array: they are fresh float
    objects, so two of them are the same member only when they compare
    equal. *)
Definition single_valued (l : list npfloat) : bool :=
  match l with
  | [] => false
  | [_] => true
  | x :: r => forallb (feqb x) r
  end.

(** [a[:-1] - a[1:]]. *)
Definition neighbour_differences (l : list npfloat) : list npfloat :=
  zip_with fsub (removelast l) (tail l).

(** ** The objects of [synthesizer.parametric] *)

Definition loc : Type := nat.

(** A star formation history object: only its [sfr] method is used. *)
Module SFH.
Record t : Type := Build { sfr : npfloat -> npfloat }.
End SFH.

(** A metallicity distribution object: its [dist] attribute and its [Z]
    method. *)
Module ZDist.
Record t : Type := Build { dist : string; Z : npfloat -> npfloat }.
End ZDist.

(** The attributes of a [Stars] instance.  Arrays are references. *)
Record Stars : Type := MkStars {
  log10ages : loc;
  ages : loc;
  log10ages_lims : npfloat * npfloat;
  metallicities : loc;
  metallicities_lims : npfloat * npfloat;
  log10metallicities : loc;
  log10metallicities_lims : npfloat * npfloat;
  sfzh : loc;
  sf_hist : loc;
  metal_hist : loc;
  sf_hist_func : option SFH.t;
  metal_hist_func : option ZDist.t;
  metallicity_grid : option string
}.

Inductive cell : Type :=
  | Arr1 (v : list npfloat)
  | Arr2 (a : ndarray2)
  | Obj (o : Stars).

(** The store: the heap of objects, allocated in sequence, and what has
    been printed. *)
Record store : Type := MkStore {
  cells : list cell;
  stdout : list string
}.

Definition alloc (c : cell) : M store loc :=
  fun s => Ok (length (cells s)) (MkStore (cells s ++ [c]) (stdout s)).

Definition read1 (l : loc) : M store (list npfloat) :=
  fun s =>
    match cells s !! l with
    | Some (Arr1 v) => Ok v s
    | _ => Raise TypeError s
    end.

Definition read2 (l : loc) : M store ndarray2 :=
  fun s =>
    match cells s !! l with
    | Some (Arr2 a) => Ok a s
    | _ => Raise TypeError s
    end.

Definition read_obj (l : loc) : M store Stars :=
  fun s =>
    match cells s !! l with
    | Some (Obj o) => Ok o s
    | _ => Raise TypeError s
    end.

Definition write (l : loc) (c : cell) : M store unit :=
  fun s => Ok tt (MkStore (<[l := c]> (cells s)) (stdout s)).

Definition print (msg : string) : M store unit :=
  fun s => Ok tt (MkStore (cells s) (stdout s ++ [msg])).

(** In-place [a /= x] and [a *= x] on arrays of the heap. *)
Definition itruediv2 (l : loc) (x : npfloat) : M store unit :=
  a <- read2 l ;; write l (Arr2 (np_map2 (fun y => fdiv y x) a)).

Definition imul2 (l : loc) (x : npfloat) : M store unit :=
  a <- read2 l ;; write l (Arr2 (np_map2 (fun y => fmul y x) a)).


Section stars.

(** The transcendental functions of numpy and the quadrature of scipy
  are black boxes: [10**x], [np.log10(x)] and
  [integrate.quad(f, a, b)[0]] with integer bounds. *)
Variable pow10 : npfloat -> npfloat.
Variable log10 : npfloat -> npfloat.
Variable quad : (npfloat -> npfloat) -> Z -> Z -> npfloat.

(** [Stars.__init__].  The instance enters the heap once all of its
  attributes are set. *)
Definition Stars__init__ (log10ages metallicities sfzh : loc)
  (sf_hist_func : option SFH.t) (metal_hist_func : option ZDist.t)
: M store loc :=
la <- read1 log10ages ;;
ages <- alloc (Arr1 (map pow10 la)) ;;
la_first <- lift (getitem la 0) ;;
la_last <- lift (getitem_last la) ;;
lz <- read1 metallicities ;;
lz_first <- lift (getitem lz 0) ;;
lz_last <- lift (getitem_last lz) ;;
log10metallicities <- alloc (Arr1 (map log10 lz)) ;;
llz_first <- lift (getitem (map log10 lz) 0) ;;
llz_last <- lift (getitem_last (map log10 lz)) ;;
a <- read2 sfzh ;;
sf_hist <- alloc (Arr1 (np_sum_axis1 a)) ;;
metal_hist <- alloc (Arr1 (np_sum_axis0 a)) ;;
let metallicity_grid :=
  if single_valued (neighbour_differences lz) then Some "Z"%string
  else if single_valued (neighbour_differences (map log10 lz))
       then Some "log10Z"%string
       else None in
alloc (Obj (MkStars log10ages ages (la_first, la_last)
              metallicities (lz_first, lz_last)
              log10metallicities (llz_first, llz_last)
              sfzh sf_hist metal_hist
              sf_hist_func metal_hist_func metallicity_grid)).

(** [Stars.__add__]. *)
Definition Stars__add__ (self second_sfzh : loc) : M store loc :=
me <- read_obj self ;;
other <- read_obj second_sfzh ;;
b <- read2 (sfzh other) ;;
a <- read2 (sfzh me) ;;
if shape_eqb (shape b) (shape a) then
  new_sfzh <- alloc (Arr2 (np_add2 a b)) ;;
  Stars__init__ (log10ages me) (metallicities me) new_sfzh None None
else raise InconsistentAddition.



(** [generate_instant_sfzh]. *)
Definition generate_instant_sfzh (log10ages metallicities : loc)
  (log10age metallicity stellar_mass : npfloat) : M store loc :=
la <- read1 log10ages ;;
lz <- read1 metallicities ;;
sfzh <- alloc (Arr2 (np_zeros2 (length la) (length lz))) ;;
ia <- lift (nearest_index la log10age) ;;
iZ <- lift (nearest_index lz metallicity) ;;
a <- read2 sfzh ;;
a' <- lift (setitem2 a ia iZ stellar_mass) ;;
write sfzh (Arr2 a') ;;;
Stars__init__ log10ages metallicities sfzh None None.

(** The loop of the ["delta"] branch of [generate_sfzh]. *)
Fixpoint sfzh_loop (av lz : list npfloat) (sf_hist : SFH.t)
  (metal_hist : ZDist.t) (sfzh : loc)
  (items : list (nat * npfloat)) (min_age : Z) : M store unit :=
match items with
| [] => ret tt
| (ia, age) :: rest =>
    a1 <- lift (getitem av (ia + 1)) ;;
    a0 <- lift (getitem av ia) ;;
    max_age <- lift (py_int (np_mean2 a1 a0)) ;;
    let sf := quad (SFH.sfr sf_hist) min_age max_age in
    iZ <- lift (nearest_index lz (ZDist.Z metal_hist age)) ;;
    a <- read2 sfzh ;;
    a' <- lift (setitem2 a ia iZ sf) ;;
    write sfzh (Arr2 a') ;;;
    sfzh_loop av lz sf_hist metal_hist sfzh rest max_age
end.

(** [generate_sfzh]. *)
Definition generate_sfzh (log10ages metallicities : loc)
  (sf_hist : SFH.t) (metal_hist : ZDist.t) (stellar_mass : npfloat)
: M store loc :=
la <- read1 log10ages ;;
ages <- alloc (Arr1 (map pow10 la)) ;;
lz <- read1 metallicities ;;
sfzh <- alloc (Arr2 (np_zeros2 (length la) (length lz))) ;;
(if String.eqb (ZDist.dist metal_hist) "delta"
 then av <- read1 ages ;;
      sfzh_loop av lz sf_hist metal_hist sfzh
        (enumerate (removelast av)) 0%Z
 else ret tt) ;;;
(if String.eqb (ZDist.dist metal_hist) "dist"
 then print "WARNING: NOT YET IMPLEMENTED"
 else ret tt) ;;;
a <- read2 sfzh ;;
itruediv2 sfzh (np_sum2 a) ;;;
imul2 sfzh stellar_mass ;;;
Stars__init__ log10ages metallicities sfzh
  (Some sf_hist) (Some metal_hist).

End stars.

(** ** The [Template] model of [emission_models/agn/models.py] *)

Module Agn.

(** A [unyt_array]: values with a unit tag; a [unyt_quantity] is a
  single value with a unit tag. *)
Record unyt_array : Type := MkUnytArray {
values : list npfloat;
units : string
}.

Record unyt_quantity : Type := MkUnytQuantity {
value : npfloat;
quantity_units : string
}.

(** What a caller may pass for [lam] and [lnu]: [None], something that
  is not a [unyt_array] (a bare array), or a [unyt_array]. *)
Inductive array_arg : Type :=
| PyNone
| RawArray (v : list npfloat)
| WithUnits (u : unyt_array).

Definition is_not_None (a : array_arg) : bool :=
match a with PyNone => false | _ => true end.

Definition isinstance_unyt_array (a : array_arg) : bool :=
match a with WithUnits _ => true | _ => false end.

(** Truth value of the [filename] argument: [None] and the empty string
  are false. *)
Definition truthy (filename : option string) : bool :=
match filename with
| None => false
| Some s => negb (String.eqb s "")
end.

(** The spectral energy distribution held by a template. *)
Record Sed : Type := MkSed {
lam : unyt_array;
lnu : unyt_array
}.

Section template.

(** [EmissionModel.__init__] and the [Sed] class are defined outside
of this file: the attributes set by the base class, the
constructor of [Sed] and [Sed.measure_bolometric_luminosity]. *)
Variable Base : Type.
Variable Kwargs : Type.
Variable EmissionModel__init__ :
string -> npfloat -> Kwargs -> exn + Base.
Variable Sed__init__ : array_arg -> array_arg -> exn + Sed.
Variable measure_bolometric_luminosity : Sed -> exn + unyt_quantity.

(** The instance under construction; an attribute that has not been
assigned yet is [None].  [sed] refers to a [Sed] object. *)
Record Template : Type := MkTemplate {
base : option Base;
sed : option loc;
normalisation : option unyt_quantity;
_is_template : option bool
}.

(** The instance [self] and the [Sed] objects built so far. *)
Record world : Type := MkWorld {
self : Template;
seds : list Sed
}.

Definition set_base (b : Base) : M world unit :=
fun w =>
let t := self w in
Ok tt (MkWorld (MkTemplate (Some b) (sed t) (normalisation t)
                  (_is_template t)) (seds w)).

Definition set_sed (l : loc) : M world unit :=
fun w =>
let t := self w in
Ok tt (MkWorld (MkTemplate (base t) (Some l) (normalisation t)
                  (_is_template t)) (seds w)).

Definition set_normalisation (n : unyt_quantity) : M world unit :=
fun w =>
let t := self w in
Ok tt (MkWorld (MkTemplate (base t) (sed t) (Some n)
                  (_is_template t)) (seds w)).

Definition set_is_template (b : bool) : M world unit :=
fun w =>
let t := self w in
Ok tt (MkWorld (MkTemplate (base t) (sed t) (normalisation t)
                  (Some b)) (seds w)).

(** [Sed(lam=lam, lnu=lnu)]: a new [Sed] object. *)
Definition new_Sed (lam lnu : array_arg) : M world loc :=
fun w =>
match Sed__init__ lam lnu with
| inr s => Ok (length (seds w)) (MkWorld (self w) (seds w ++ [s]))
| inl e => Raise e w
end.

Definition read_Sed (l : loc) : M world Sed :=
fun w =>
match seds w !! l with
| Some s => Ok s w
| None => Raise TypeError w
end.

(** [sed.lnu /= x]. *)
Definition Sed_lnu_itruediv (l : loc) (x : npfloat) : M world unit :=
fun w =>
match seds w !! l with
| Some s =>
    let lnu' := MkUnytArray (map (fun y => fdiv y x) (values (lnu s)))
                  (units (lnu s)) in
    Ok tt (MkWorld (self w) (<[l := MkSed (lam s) lnu']> (seds w)))
| None => Raise TypeError w
end.

(** [Template.__init__]. *)
Definition Template__init__ (label : string) (filename : option string)
(lam lnu : array_arg) (fesc : npfloat) (kwargs : Kwargs)
: M world unit :=
b <- lift (EmissionModel__init__ label fesc kwargs) ;;
set_base b ;;;
(if is_not_None lam && negb (isinstance_unyt_array lam)
then raise MissingUnits else ret tt) ;;;
(if is_not_None lnu && negb (isinstance_unyt_array lnu)
then raise MissingUnits else ret tt) ;;;
(if truthy filename then raise UnimplementedFunctionality
else ret tt) ;;;
(if is_not_None lam && is_not_None lnu then
 s <- new_Sed lam lnu ;;
 set_sed s ;;;
 sd <- read_Sed s ;;
 n <- lift (measure_bolometric_luminosity sd) ;;
 set_normalisation n ;;;
 Sed_lnu_itruediv s (value n)
else raise MissingArgument) ;;;
set_is_template true.

(** The instance before [__init__] runs. *)
Definition blank : Template := MkTemplate None None None None.

End template.

End Agn.

(** ** Observing the result of a call *)

(** The instance returned by a builder or by an addition, and its two
    dimensional density. *)
Definition returned_Stars (r : outcome store loc) : option Stars :=
  match r with
  | Ok l s =>
      match cells s !! l with
      | Some (Obj o) => Some o
      | _ => None
      end
  | Raise _ _ => None
  end.

Definition final_store {St A} (r : outcome St A) : St :=
  match r with
  | Ok _ s => s
  | Raise _ s => s
  end.

Definition raised {St A} (r : outcome St A) : option exn :=
  match r with
  | Ok _ _ => None
  | Raise e _ => Some e
  end.

Definition array2_at (s : store) (l : loc) : option ndarray2 :=
  match cells s !! l with
  | Some (Arr2 a) => Some a
  | _ => None
  end.

Definition array1_at (s : store) (l : loc) : option (list npfloat) :=
  match cells s !! l with
  | Some (Arr1 v) => Some v
  | _ => None
  end.

Definition returned_sfzh (r : outcome store loc) : option ndarray2 :=
  match returned_Stars r with
  | Some o => array2_at (final_store r) (sfzh o)
  | None => None
  end.


(** The bin arrays behind two references are arrays with at least one
    entry: what [Stars.__init__] needs to return normally. *)
Definition usable_bins (s : store) (la_loc lz_loc : loc) : Prop :=
  exists la lz, cells s !! la_loc = Some (Arr1 la) /\ la <> [] /\
                cells s !! lz_loc = Some (Arr1 lz) /\ lz <> [].

(** An instance of the store with usable bin arrays and a two dimensional
    density. *)
Definition valid_Stars (s : store) (l : loc) (o : Stars) (a : ndarray2)
  : Prop :=
  cells s !! l = Some (Obj o) /\
  usable_bins s (log10ages o) (metallicities o) /\
  cells s !! sfzh o = Some (Arr2 a).

(** The bin grids of an instance, by value. *)
Definition bin_grids (s : store) (o : Stars)
  : option (list npfloat) * option (list npfloat) :=
  (array1_at s (log10ages o), array1_at s (metallicities o)).

(** The store grew by allocation only: every object that existed before
    is still there, unchanged, and nothing was printed. *)
Definition untouched (s s' : store) : Prop :=
  cells s `prefix_of` cells s' /\ stdout s' = stdout s.

(** ** The integration intervals *)

(** The pairs [(min_age, max_age)] handed to [quad] by the loops of
    [generate_sf_hist] and [generate_sfzh], in order. *)
Fixpoint loop_bounds (av : list npfloat) (items : list (nat * npfloat))
    (min_age : Z) : exn + list (Z * Z) :=
  match items with
  | [] => inr []
  | (ia, _) :: rest =>
      match getitem av (ia + 1) with
      | inl e => inl e
      | inr a1 =>
          match getitem av ia with
          | inl e => inl e
          | inr a0 =>
              match py_int (np_mean2 a1 a0) with
              | inl e => inl e
              | inr max_age =>
                  match loop_bounds av rest max_age with
                  | inl e => inl e
                  | inr bs => inr ((min_age, max_age) :: bs)
                  end
              end
          end
      end
  end.

Definition integration_bounds (av : list npfloat) : exn + list (Z * Z) :=
  loop_bounds av (enumerate (removelast av)) 0%Z.

(** The weights the loops write, one per interval. *)
Definition integrals (quad : (npfloat -> npfloat) -> Z -> Z -> npfloat)
    (f : npfloat -> npfloat) (bs : list (Z * Z)) : list npfloat :=
  map (fun b => quad f (fst b) (snd b)) bs.




(** The density [generate_sfzh] holds before it normalises: one weight
    per row but the last, in the column picked for that row, and a last
    row of zeros. *)
Definition raw_density (m : nat) (cols : list nat) (ws : list npfloat)
  : ndarray2 :=
  NdArray2 m
    (zip_with (fun c w => <[c := w]> (replicate m fzero)) cols ws ++
     [replicate m fzero]).

(** [a /= np.sum(a)] followed by [a *= mass]. *)
Definition normalised (a : ndarray2) (mass : npfloat) : ndarray2 :=
  np_map2 (fun y => fmul y mass)
    (np_map2 (fun y => fdiv y (np_sum2 a)) a).


(** ** Concrete instances for the examples *)

(** [10**x], exact on integer exponents. *)
Definition pow10_int (x : npfloat) : npfloat :=
  match x with
  | Fin q => Fin (Qpower 10 (Qfloor q))
  | PInf => PInf
  | NInf => Fin 0
  | NaN => NaN
  end.

Fixpoint ilog10 (fuel : nat) (q : Q) : Z :=
  match fuel with
  | O => 0
  | S k =>
      if Qle_bool 10 q then (1 + ilog10 k (q / 10))%Z
      else if Qle_bool 1 q then 0%Z
      else (ilog10 k (q * 10) - 1)%Z
  end.

(** [np.log10(x)], exact on the powers of ten. *)
Definition log10_floor (x : npfloat) : npfloat :=
  match x with
  | Fin q =>
      match Qsign q with
      | Gt => Fin (inject_Z (ilog10 400 q))
      | Eq => NInf
      | Lt => NaN
      end
  | PInf => PInf
  | NInf | NaN => NaN
  end.

(** The midpoint rule, exact on constant and on affine integrands. *)
Definition quad_midpoint (f : npfloat -> npfloat) (a b : Z) : npfloat :=
  fmul (f (Fin ((inject_Z a + inject_Z b) / 2))) (Fin (inject_Z (b - a))).

(** A store holding [log10ages = [6, 7]] at reference 0 and
    [metallicities = [0.01, 0.1]] at reference 1. *)
Definition example_store : store :=
  MkStore [Arr1 [Fin 6; Fin 7]; Arr1 [Fin (1 # 100); Fin (1 # 10)]] [].

Definition constant_sfh (c : Q) : SFH.t := SFH.Build (fun _ => Fin c).


Definition delta_constant (z : Q) : ZDist.t :=
  ZDist.Build "delta" (fun _ => Fin z).

Definition distributed (z : Q) : ZDist.t :=
  ZDist.Build "dist" (fun _ => Fin z).

(** Three single-bin populations on the grids of [example_store], built
    by [generate_instant_sfzh]; the instances are at references 7, 13 and
    19. *)
Definition three_populations : store :=
  Eval vm_compute in final_store
    ((generate_instant_sfzh pow10_int log10_floor 0 1
        (Fin 6) (Fin (1 # 100)) (Fin 1) ;;;
      generate_instant_sfzh pow10_int log10_floor 0 1
        (Fin 7) (Fin (1 # 10)) (Fin 2) ;;;
      generate_instant_sfzh pow10_int log10_floor 0 1
        (Fin 7) (Fin (1 # 100)) (Fin 3)) example_store).

(** Two age grids, [[6, 7]] at reference 0 and [[8, 9]] at reference 2,
    one metallicity grid at reference 1, and one population on each age
    grid, at references 8 and 14. *)
Definition two_grids : store :=
  Eval vm_compute in final_store
    ((generate_instant_sfzh pow10_int log10_floor 0 1
        (Fin 6) (Fin (1 # 100)) (Fin 1) ;;;
      generate_instant_sfzh pow10_int log10_floor 2 1
        (Fin 9) (Fin (1 # 10)) (Fin 2))
       (MkStore [Arr1 [Fin 6; Fin 7]; Arr1 [Fin (1 # 100); Fin (1 # 10)];
                 Arr1 [Fin 8; Fin 9]] [])).

(** Bins of length two next to a three by three density, at reference 2,
    and a population with a two by two density, at reference 8. *)
Definition mismatched : store :=
  Eval vm_compute in final_store
    (generate_instant_sfzh pow10_int log10_floor 0 1
       (Fin 6) (Fin (1 # 100)) (Fin 1)
       (MkStore [Arr1 [Fin 6; Fin 7]; Arr1 [Fin (1 # 100); Fin (1 # 10)];
                 Arr2 (np_zeros2 3 3)] [])).

(** The store [mismatched] after an instance has been built on the three
    by three density: populations with unequal densities at references 8
    and 13. *)
Definition unequal_shapes : store :=
  Eval vm_compute in final_store
    (Stars__init__ pow10_int log10_floor 0 1 2 None None mismatched).

(** Stand-ins for the base class and for [Sed] in the examples of
    [Template]: a base class without attributes, a [Sed] that keeps its
    arguments, and the sum of [lnu] as bolometric luminosity. *)
Definition plain_EmissionModel__init__ (label : string) (fesc : npfloat)
    (kwargs : unit) : exn + unit := inr tt.

Definition plain_Sed__init__ (lam lnu : Agn.array_arg) : exn + Agn.Sed :=
  match lam, lnu with
  | Agn.WithUnits a, Agn.WithUnits b => inr (Agn.MkSed a b)
  | _, _ => inl TypeError
  end.

Definition plain_bolometric_luminosity (s : Agn.Sed)
  : exn + Agn.unyt_quantity :=
  inr (Agn.MkUnytQuantity (np_sum (Agn.values (Agn.lnu s))) "erg/s").

Definition fresh_world : Agn.world unit :=
  Agn.MkWorld unit (Agn.blank unit) [].

Definition with_units (u : string) (v : list npfloat) : Agn.array_arg :=
  Agn.WithUnits (Agn.MkUnytArray v u).

(** ** More of [stars.py]: [generate_sfzh_from_array] *)



Section from_array.

Variable pow10 : npfloat -> npfloat.
Variable log10 : npfloat -> npfloat.


End from_array.

(** ** Observations used by the further properties *)






(** ** The composite models of [emission_models/agn/models.py] *)

(** Every class but [Template] only builds its child models and hands
    keyword arguments to [EmissionModel.__init__], which is defined
    outside of this file.  The embedding follows the keyword arguments:
    a call binds the parameters a function declares, collects the others
    in [**kwargs], and refuses a keyword given twice; what is observed is
    the sequence of calls of the base initialiser with their arguments. *)

Module Models.

(** The Python values that travel through the keyword arguments. *)
Inductive value : Type :=
| VNone
| VFloat (x : npfloat)
| VStr (s : string)
| VGrid (name : string) (dust_emission_model : value)
| VModel (m : loc)
| VPair (a b : value)
| VOther (repr : string).

Abbreviation kwargs_t := (gmap string value).

(** [TypeError] (a keyword given twice, a required argument missing, an
  operand that is not a number), [AttributeError], or whatever the base
  initialiser raises. *)
Inductive pyexn : Type :=
| PyTypeError
| PyAttributeError
| FromBase (e : exn).

(** One call [EmissionModel.__init__(self, **arguments)]. *)
Record init_call : Type := MkCall {
call_self : loc;
call_args : kwargs_t
}.

(** The instances created so far and the calls of the base initialiser
  made so far, in order. *)
Record trace : Type := MkTrace {
allocated : nat;
calls : list init_call
}.

Definition R (A : Type) : Type := trace -> (pyexn + A) * trace.

Definition rret {A} (a : A) : R A := fun t => (inr a, t).

Definition rbind {A B} (m : R A) (k : A -> R B) : R B :=
fun t =>
  match m t with
  | (inr a, t') => k a t'
  | (inl e, t') => (inl e, t')
  end.

Definition rlift {A} (r : pyexn + A) : R A := fun t => (r, t).

Declare Scope agn_scope.
Delimit Scope agn_scope with agn.
Notation "x <- m ;; k" := (rbind m (fun x => k))
(at level 100, m at next level, right associativity) : agn_scope.
Notation "m ;;; k" := (rbind m (fun _ => k))
(at level 100, right associativity) : agn_scope.
Local Open Scope agn_scope.

(** A new instance: Python creates the object before [__init__] runs. *)
Definition new_object : R loc :=
fun t => (inr (allocated t), MkTrace (S (allocated t)) (calls t)).

(** Binding the parameters of a function from the keyword arguments of a
  call: a required parameter, a parameter with a default, and the
  [**kwargs] left once the declared parameters are taken out. *)
Definition required (name : string) (args : kwargs_t) : pyexn + value :=
match args !! name with
| Some v => inr v
| None => inl PyTypeError
end.

Definition optional (name : string) (default : value) (args : kwargs_t)
: value :=
match args !! name with
| Some v => v
| None => default
end.

Definition without (names : list string) (args : kwargs_t) : kwargs_t :=
foldr delete args names.

(** [f(name=..., **kwargs)]: a keyword that is given explicitly and is in
  [kwargs] as well is a [TypeError]. *)
Definition call {A} (f : kwargs_t -> R A) (explicit kwargs : kwargs_t)
: R A :=
if decide (explicit ##ₘ kwargs) then f (explicit ∪ kwargs)
else rlift (inl PyTypeError).

(** [grid.dust_emission_model]. *)
Definition getattr_dust_emission_model (v : value) : pyexn + value :=
match v with
| VGrid _ d => inr d
| _ => inl PyAttributeError
end.

(** [a - b] on Python numbers. *)
Definition py_sub (a b : value) : pyexn + value :=
match a, b with
| VFloat x, VFloat y => inr (VFloat (fsub x y))
| _, _ => inl PyTypeError
end.

(** The default covering fraction, [0.1]. *)
Definition tenth : value := VFloat (Fin (1 # 10)).

Section models.

(** The base initialiser: it returns normally or raises, depending on the
instance and on the keyword arguments it is given. *)
Variable EmissionModel__init__ : loc -> kwargs_t -> option exn.

(** [EmissionModel.__init__(self, name=..., **kwargs)]. *)
Definition base_init (self : loc) (args : kwargs_t) : R unit :=
fun t =>
let t' := MkTrace (allocated t) (calls t ++ [MkCall self args]) in
match EmissionModel__init__ self args with
| None => (inr tt, t')
| Some e => (inl (FromBase e), t')
end.

(** [NLRIncidentEmission.__init__]. *)
Definition NLRIncidentEmission (args : kwargs_t) : R loc :=
self <- new_object ;;
grid <- rlift (required "grid" args) ;;
let label := optional "label" (VStr "nlr_incident") args in
let kwargs := without ["grid"; "label"] args in
call (base_init self)
{[ "grid" := grid; "label" := label;
   "extract" := VStr "incident"; "line_region" := VStr "nlr" ]}
kwargs ;;;
rret self.

(** [BLRIncidentEmission.__init__]. *)
Definition BLRIncidentEmission (args : kwargs_t) : R loc :=
self <- new_object ;;
grid <- rlift (required "grid" args) ;;
let label := optional "label" (VStr "blr_incident") args in
let kwargs := without ["grid"; "label"] args in
call (base_init self)
{[ "grid" := grid; "label" := label;
   "extract" := VStr "incident"; "line_region" := VStr "blr" ]}
kwargs ;;;
rret self.

(** [NLRTransmittedEmission.__init__]. *)
Definition NLRTransmittedEmission (args : kwargs_t) : R loc :=
self <- new_object ;;
grid <- rlift (required "grid" args) ;;
let label := optional "label" (VStr "nlr_transmitted") args in
let covering_fraction := optional "covering_fraction" tenth args in
let kwargs := without ["grid"; "label"; "covering_fraction"] args in
call (base_init self)
{[ "grid" := grid; "label" := label; "fesc" := covering_fraction;
   "extract" := VStr "transmitted"; "line_region" := VStr "nlr" ]}
kwargs ;;;
rret self.

(** [BLRTransmittedEmission.__init__]. *)
Definition BLRTransmittedEmission (args : kwargs_t) : R loc :=
self <- new_object ;;
grid <- rlift (required "grid" args) ;;
let label := optional "label" (VStr "blr_transmitted") args in
let covering_fraction := optional "covering_fraction" tenth args in
let kwargs := without ["grid"; "label"; "covering_fraction"] args in
call (base_init self)
{[ "grid" := grid; "label" := label; "fesc" := covering_fraction;
   "extract" := VStr "transmitted"; "line_region" := VStr "blr" ]}
kwargs ;;;
rret self.

(** [DiscIncidentEmission.__init__]. *)
Definition DiscIncidentEmission (args : kwargs_t) : R loc :=
self <- new_object ;;
grid <- rlift (required "grid" args) ;;
let label := optional "label" (VStr "disc_incident") args in
let kwargs := without ["grid"; "label"] args in
call (base_init self)
{[ "grid" := grid; "label" := label;
   "extract" := VStr "incident"; "line_region" := VStr "nlr" ]}
kwargs ;;;
rret self.

(** [DiscTranmittedEmission.__init__]. *)
Definition DiscTranmittedEmission (args : kwargs_t) : R loc :=
self <- new_object ;;
grid <- rlift (required "grid" args) ;;
let label := optional "label" (VStr "disc_transmitted") args in
let covering_fraction_blr := optional "covering_fraction_blr" tenth args in
let covering_fraction_nlr := optional "covering_fraction_nlr" tenth args in
let kwargs :=
without ["grid"; "label"; "covering_fraction_blr";
         "covering_fraction_nlr"] args in
nlr <- call NLRTransmittedEmission
       {[ "grid" := grid; "label" := VStr "nlr_transmitted";
          "covering_fraction" := covering_fraction_nlr ]} kwargs ;;
blr <- call BLRTransmittedEmission
       {[ "grid" := grid; "label" := VStr "blr_transmitted";
          "covering_fraction" := covering_fraction_blr ]} kwargs ;;
call (base_init self)
{[ "grid" := grid; "label" := label;
   "combine" := VPair (VModel nlr) (VModel blr) ]}
kwargs ;;;
rret self.

(** [DiscEscapedEmission.__init__]. *)
Definition DiscEscapedEmission (args : kwargs_t) : R loc :=
self <- new_object ;;
grid <- rlift (required "grid" args) ;;
let label := optional "label" (VStr "disc_escaped") args in
let covering_fraction_nlr := optional "covering_fraction_nlr" tenth args in
let covering_fraction_blr := optional "covering_fraction_blr" tenth args in
let kwargs :=
without ["grid"; "label"; "covering_fraction_nlr";
         "covering_fraction_blr"] args in
d <- rlift (py_sub (VFloat (Fin 1)) covering_fraction_nlr) ;;
fesc <- rlift (py_sub d covering_fraction_blr) ;;
call (base_init self)
{[ "grid" := grid; "label" := label;
   "extract" := VStr "incident"; "fesc" := fesc ]}
kwargs ;;;
rret self.

(** [DiscEmission.__init__]. *)
Definition DiscEmission (args : kwargs_t) : R loc :=
self <- new_object ;;
grid <- rlift (required "grid" args) ;;
let label := optional "label" (VStr "disc") args in
let kwargs := without ["grid"; "label"] args in
transmitted <- call DiscTranmittedEmission
               {[ "grid" := grid; "label" := VStr "disc_transmitted" ]}
               kwargs ;;
escaped <- call DiscEscapedEmission
           {[ "grid" := grid; "label" := VStr "disc_escaped" ]}
           kwargs ;;
call (base_init self)
{[ "grid" := grid; "label" := label;
   "combine" := VPair (VModel transmitted) (VModel escaped) ]}
kwargs ;;;
rret self.

(** [TorusEmission.__init__]. *)
Definition TorusEmission (args : kwargs_t) : R loc :=
self <- new_object ;;
torus_emission_model <- rlift (required "torus_emission_model" args) ;;
scale_by <- rlift (required "scale_by" args) ;;
let label := optional "label" (VStr "torus") args in
let kwargs := without ["torus_emission_model"; "scale_by"; "label"] args in
call (base_init self)
{[ "label" := label; "dust_emission_model" := torus_emission_model;
   "dust_lum_intrinsic" := scale_by ]}
kwargs ;;;
rret self.

(** [AGNIntrinsicEmission.__init__]. *)
Definition AGNIntrinsicEmission (args : kwargs_t) : R loc :=
self <- new_object ;;
grid <- rlift (required "grid" args) ;;
let label := optional "label" (VStr "intrinsic") args in
let covering_fraction_nlr := optional "covering_fraction_nlr" tenth args in
let covering_fraction_blr := optional "covering_fraction_blr" tenth args in
let kwargs :=
without ["grid"; "label"; "covering_fraction_nlr";
         "covering_fraction_blr"] args in
incident <- call DiscIncidentEmission
            {[ "grid" := grid; "label" := VStr "disc_incident" ]}
            kwargs ;;
disc <- call DiscEmission
        {[ "grid" := grid; "label" := VStr "disc";
           "covering_fraction_nlr" := covering_fraction_nlr;
           "covering_fraction_blr" := covering_fraction_blr ]}
        kwargs ;;
dust <- rlift (getattr_dust_emission_model grid) ;;
torus <- call TorusEmission
         {[ "torus_emission_model" := dust;
            "scale_by" := VModel incident; "label" := VStr "torus" ]}
         kwargs ;;
call (base_init self)
{[ "grid" := grid; "label" := label;
   "combine" := VPair (VModel disc) (VModel torus) ]}
kwargs ;;;
rret self.

End models.

(** The labels and the escape fractions of a sequence of calls. *)
Definition labels (cs : list init_call) : list (option value) :=
map (fun c => call_args c !! "label") cs.

Definition fescs (cs : list init_call) : list (option value) :=
map (fun c => call_args c !! "fesc") cs.

(** The keywords the classes of the file use themselves; extra keyword
  arguments that avoid them pass through every call untouched. *)
Definition reserved : list string :=
["grid"; "label"; "fesc"; "extract"; "line_region"; "combine";
 "covering_fraction"; "covering_fraction_nlr"; "covering_fraction_blr";
 "torus_emission_model"; "scale_by"; "dust_emission_model";
 "dust_lum_intrinsic"].

Definition clean (kwargs : kwargs_t) : Prop :=
Forall (fun name => kwargs !! name = None) reserved.

(** A base initialiser that accepts everything, and an empty trace. *)
Definition accepting (self : loc) (args : kwargs_t) : option exn := None.

Definition start : trace := MkTrace 0 [].

End Models.

(** * Properties of the model *)

(** ** Facts about floating point values *)

#[global] Instance float_equiv_equivalence : Equivalence (≡@{npfloat}).
Proof.
  unfold equiv, npfloat_equiv. split.
  - intros []; simpl; auto with qarith.
  - intros [] []; simpl; auto with qarith.
  - intros [] [] []; simpl; try tauto. intros H1 H2. by rewrite H1.
Qed.

Lemma fadd_comm x y : fadd x y = fadd y x.
Proof.
  destruct x as [a| | |], y as [b| | |]; simpl; try reflexivity.
  f_equal. unfold Qplus. f_equal; [apply Z.add_comm | apply Pos.mul_comm].
Qed.

Lemma fadd_assoc x y z : fadd (fadd x y) z = fadd x (fadd y z).
Proof.
  destruct x as [a| | |], y as [b| | |], z as [c| | |]; simpl;
    try reflexivity.
  f_equal. unfold Qplus. simpl. f_equal.
  - rewrite !Pos2Z.inj_mul. ring.
  - by rewrite Pos.mul_assoc.
Qed.

#[global] Instance fadd_proper : Proper ((≡) ==> (≡) ==> (≡)) fadd.
Proof.
  intros [a| | |] [a'| | |] Ha [b| | |] [b'| | |] Hb;
    unfold equiv, npfloat_equiv in *; simpl in *; try tauto.
  by rewrite Ha, Hb.
Qed.

Lemma fadd_zero_r x : fadd x fzero ≡ x.
Proof.
  destruct x; unfold equiv, npfloat_equiv; simpl; auto. ring.
Qed.

Lemma fadd_zero_l x : fadd fzero x ≡ x.
Proof. rewrite fadd_comm. apply fadd_zero_r. Qed.

Lemma np_sum_cons x l : np_sum (x :: l) = fadd x (np_sum l).
Proof. reflexivity. Qed.

Lemma np_sum_app l1 l2 : np_sum (l1 ++ l2) ≡ fadd (np_sum l1) (np_sum l2).
Proof.
  induction l1 as [|x l1 IH].
  - symmetry. apply fadd_zero_l.
  - cbn [app]. rewrite !np_sum_cons, IH. by rewrite fadd_assoc.
Qed.

(** ** Running the monad *)


Lemma bind_lift {St A B} (r : exn + A) (k : A -> M St B) s a :
  r = inr a -> bind (lift r) k s = k a s.
Proof. by intros ->. Qed.

Lemma bind_alloc {B} c (k : loc -> M store B) s :
  bind (alloc c) k s
  = k (length (cells s)) (MkStore (cells s ++ [c]) (stdout s)).
Proof. reflexivity. Qed.

Lemma bind_read1 {B} l v (k : list npfloat -> M store B) s :
  cells s !! l = Some (Arr1 v) -> bind (read1 l) k s = k v s.
Proof. unfold bind, read1. by intros ->. Qed.

Lemma bind_read2 {B} l a (k : ndarray2 -> M store B) s :
  cells s !! l = Some (Arr2 a) -> bind (read2 l) k s = k a s.
Proof. unfold bind, read2. by intros ->. Qed.

Lemma bind_read_obj {B} l o (k : Stars -> M store B) s :
  cells s !! l = Some (Obj o) -> bind (read_obj l) k s = k o s.
Proof. unfold bind, read_obj. by intros ->. Qed.

Lemma bind_write {B} l c (k : unit -> M store B) s :
  bind (write l c) k s = k tt (MkStore (<[l := c]> (cells s)) (stdout s)).
Proof. reflexivity. Qed.

Lemma bind_print {B} msg (k : unit -> M store B) s :
  bind (print msg) k s = k tt (MkStore (cells s) (stdout s ++ [msg])).
Proof. reflexivity. Qed.

Lemma bind_ret {St A B} (a : A) (k : A -> M St B) s : bind (ret a) k s = k a s.
Proof. reflexivity. Qed.

Lemma getitem_first x l : getitem (x :: l) 0 = inr x.
Proof. reflexivity. Qed.

Lemma getitem_last_cons x l : exists y, getitem_last (x :: l) = inr y.
Proof.
  unfold getitem_last. destruct (last (x :: l)) eqn:E; eauto.
  by apply last_None in E.
Qed.

Lemma lookup_grown {A} (l : list A) i x y :
  l !! i = Some x -> (l ++ y) !! i = Some x.
Proof. apply lookup_app_l_Some. Qed.

Section stars_init.
Variable pow10 : npfloat -> npfloat.
Variable log10 : npfloat -> npfloat.

(** [Stars.__init__] returns normally as soon as the bin arrays are not
    empty; the shape of the density plays no role. *)
Lemma Stars__init___Ok s la_loc lz_loc sfzh_loc f g la lz a :
  cells s !! la_loc = Some (Arr1 la) -> la <> [] ->
  cells s !! lz_loc = Some (Arr1 lz) -> lz <> [] ->
  cells s !! sfzh_loc = Some (Arr2 a) ->
  exists o,
    Stars__init__ pow10 log10 la_loc lz_loc sfzh_loc f g s
    = Ok (length (cells s) + 4)%nat
        (MkStore (cells s ++ [Arr1 (map pow10 la); Arr1 (map log10 lz);
                              Arr1 (np_sum_axis1 a); Arr1 (np_sum_axis0 a);
                              Obj o])
           (stdout s)) /\
    log10ages o = la_loc /\ metallicities o = lz_loc /\
    sfzh o = sfzh_loc /\ sf_hist_func o = f /\ metal_hist_func o = g.
Proof.
  intros Hla Hne Hlz Hnz Ha.
  destruct la as [|x la]; [done|]. destruct lz as [|z lz]; [done|].
  destruct (getitem_last_cons x la) as [xl Hxl].
  destruct (getitem_last_cons z lz) as [zl Hzl].
  destruct (getitem_last_cons (log10 z) (map log10 lz)) as [wl Hwl].
  eexists. split.
  - unfold Stars__init__.
    rewrite (bind_read1 _ _ _ _ Hla), bind_alloc.
    rewrite (bind_lift _ _ _ _ (getitem_first _ _)), (bind_lift _ _ _ _ Hxl).
    rewrite (bind_read1 _ (z :: lz)) by (by apply lookup_grown).
    rewrite (bind_lift _ _ _ _ (getitem_first _ _)), (bind_lift _ _ _ _ Hzl).
    rewrite bind_alloc. cbn [cells stdout map].
    rewrite (bind_lift _ _ _ _ (getitem_first _ _)), (bind_lift _ _ _ _ Hwl).
    rewrite (bind_read2 _ a) by (by do 2 apply lookup_grown).
    rewrite !bind_alloc. unfold alloc. cbn [cells stdout].
    rewrite !length_app. cbn [length].
    rewrite <- !app_assoc. cbn [app].
    f_equal. lia.
  - cbn. done.
Qed.
End stars_init.

(** ** [argmin] on arrays of finite values *)






Lemma argmin_lt l i : argmin l = inr i -> (i < length l)%nat.
Proof.
  destruct l as [|x l]; [done|]. simpl. intros [= <-].
  assert (forall l mp mi k, (mi < k)%nat ->
            (argmin_from mp mi k l < k + length l)%nat) as H.
  { clear. induction l as [|y l IH]; intros mp mi k Hk; simpl; [lia|].
    destruct (is_nan mp); [lia|].
    destruct (fge y mp).
    - specialize (IH mp mi (S k)). lia.
    - specialize (IH y k (S k)). lia. }
  specialize (H l x 0%nat 1%nat). lia.
Qed.

Lemma nearest_index_lt l x i : nearest_index l x = inr i -> (i < length l)%nat.
Proof.
  unfold nearest_index. intros H. apply argmin_lt in H.
  by rewrite length_map in H.
Qed.

Lemma nearest_index_nonempty l x :
  l <> [] -> exists i, nearest_index l x = inr i.
Proof. destruct l; [done|]. intros _. unfold nearest_index. simpl. eauto. Qed.


(** ** Writing one entry of an array of zeros *)




Lemma lookup_new {A} (l : list A) x : (l ++ [x]) !! length l = Some x.
Proof. by apply list_lookup_middle. Qed.

Lemma insert_new {A} (l : list A) x y : <[length l := y]> (l ++ [x]) = l ++ [y].
Proof.
  rewrite insert_app_r_alt by lia. by rewrite Nat.sub_diag.
Qed.

Lemma returned_sfzh_Ok l s o a :
  cells s !! l = Some (Obj o) -> cells s !! sfzh o = Some (Arr2 a) ->
  returned_sfzh (Ok l s) = Some a.
Proof.
  intros Ho Ha. unfold returned_sfzh, returned_Stars, array2_at. simpl.
  by rewrite Ho, Ha.
Qed.

Section instant.
Variable pow10 : npfloat -> npfloat.
Variable log10 : npfloat -> npfloat.

End instant.

(** ** The integration loops *)

Lemma store_insert_id s l c :
  cells s !! l = Some c -> MkStore (<[l := c]> (cells s)) (stdout s) = s.
Proof. intros H. destruct s as [cs out]. simpl in *. by rewrite list_insert_id. Qed.

Lemma loop_bounds_length av items min_age bs :
  loop_bounds av items min_age = inr bs -> length bs = length items.
Proof.
  revert min_age bs. induction items as [|[ia age] rest IH]; intros m bs.
  - by intros [= <-].
  - simpl. destruct (getitem av (ia + 1)); [done|].
    destruct (getitem av ia); [done|].
    destruct (py_int _) as [|hi]; [done|].
    destruct (loop_bounds av rest hi) eqn:E; [done|].
    intros [= <-]. simpl. f_equal. by eapply IH.
Qed.


Section loops.
Variable quad : (npfloat -> npfloat) -> Z -> Z -> npfloat.


End loops.

(** ** Sums and normalisation *)

Lemma np_sum_zeros n : np_sum (replicate n fzero) ≡ fzero.
Proof.
  induction n as [|n IH]; [done|].
  cbn [replicate]. rewrite np_sum_cons, IH. apply fadd_zero_l.
Qed.


Lemma np_sum_concat_zeros n m :
  np_sum (concat (replicate n (replicate m fzero))) ≡ fzero.
Proof.
  induction n as [|n IH]; [done|].
  cbn [replicate concat].
  rewrite np_sum_app, IH, np_sum_zeros. apply fadd_zero_l.
Qed.








Lemma equiv_Fin_inv x q : x ≡ Fin q -> exists q', x = Fin q' /\ (q' == q)%Q.
Proof. destruct x; try done. intros H. eauto. Qed.



(** ** Running [generate_sfzh] and [generate_sf_hist] *)

Lemma length_removelast_cons {A} (x : A) l :
  length (x :: l) = S (length (removelast (x :: l))).
Proof.
  revert x. induction l as [|y l IH]; intros x; [done|].
  change (removelast (x :: y :: l)) with (x :: removelast (y :: l)).
  cbn [length]. by rewrite <- IH.
Qed.

Section builders.
Variable pow10 : npfloat -> npfloat.
Variable log10 : npfloat -> npfloat.
Variable quad : (npfloat -> npfloat) -> Z -> Z -> npfloat.

End builders.

(** ** Addition *)



Lemma shape_eqb_eq a b : shape_eqb (shape a) (shape b) = true <-> shape a = shape b.
Proof.
  unfold shape_eqb, shape. simpl. rewrite andb_true_iff, !Nat.eqb_eq.
  split; [intros [-> ->]; done | intros [= -> ->]; done].
Qed.




Lemma usable_bins_grown s news out la_loc lz_loc :
  usable_bins s la_loc lz_loc ->
  usable_bins (MkStore (cells s ++ news) out) la_loc lz_loc.
Proof.
  intros (la & lz & Hla & Hne & Hlz & Hnz). exists la, lz. cbn [cells].
  repeat split; try done; by apply lookup_grown.
Qed.

Lemma valid_Stars_grown s news out l o a :
  valid_Stars s l o a -> valid_Stars (MkStore (cells s ++ news) out) l o a.
Proof.
  intros (Ho & Hb & Ha). repeat split.
  - by apply lookup_grown.
  - by apply usable_bins_grown.
  - by apply lookup_grown.
Qed.

Lemma untouched_grown s news : untouched s (MkStore (cells s ++ news) (stdout s)).
Proof. split; [by apply prefix_app_r | done]. Qed.

Section addition.
Variable pow10 : npfloat -> npfloat.
Variable log10 : npfloat -> npfloat.

Lemma Stars__add___Ok s a b oa ob xa xb :
  valid_Stars s a oa xa -> valid_Stars s b ob xb -> shape xa = shape xb ->
  exists o news,
    Stars__add__ pow10 log10 a b s
    = Ok (length (cells s) + 5)%nat
        (MkStore (cells s ++ Arr2 (np_add2 xa xb) :: news ++ [Obj o])
           (stdout s)) /\
    length news = 4%nat /\
    log10ages o = log10ages oa /\ metallicities o = metallicities oa /\
    sfzh o = length (cells s).
Proof.
  intros (Hoa & (la & lz & Hla & Hne & Hlz & Hnz) & Hxa) (Hob & _ & Hxb) Hsh.
  set (s1 := MkStore (cells s ++ [Arr2 (np_add2 xa xb)]) (stdout s)).
  destruct (Stars__init___Ok pow10 log10 s1 (log10ages oa) (metallicities oa)
              (length (cells s)) None None la lz (np_add2 xa xb))
    as (o & Hinit & Ho1 & Ho2 & Ho3 & _).
  { by apply lookup_grown. }
  { done. }
  { by apply lookup_grown. }
  { done. }
  { apply lookup_new. }
  exists o. eexists. split; [|split; [|done]].
  - unfold Stars__add__.
    rewrite (bind_read_obj _ _ _ _ Hoa), (bind_read_obj _ _ _ _ Hob).
    rewrite (bind_read2 _ _ _ _ Hxb), (bind_read2 _ _ _ _ Hxa).
    rewrite (proj2 (shape_eqb_eq xb xa)) by done.
    rewrite bind_alloc. fold s1. rewrite Hinit.
    subst s1. cbn [cells stdout]. rewrite length_app. cbn [length].
    rewrite <- app_assoc. cbn [app]. f_equal; [lia|].
    f_equal. f_equal. f_equal.
    instantiate (1 := [_; _; _; _]). reflexivity.
  - reflexivity.
Qed.

Lemma Stars__add___Raise s a b oa ob xa xb :
  cells s !! a = Some (Obj oa) -> cells s !! sfzh oa = Some (Arr2 xa) ->
  cells s !! b = Some (Obj ob) -> cells s !! sfzh ob = Some (Arr2 xb) ->
  shape xa <> shape xb ->
  Stars__add__ pow10 log10 a b s = Raise InconsistentAddition s.
Proof.
  intros Hoa Hxa Hob Hxb Hsh. unfold Stars__add__.
  rewrite (bind_read_obj _ _ _ _ Hoa), (bind_read_obj _ _ _ _ Hob).
  rewrite (bind_read2 _ _ _ _ Hxb), (bind_read2 _ _ _ _ Hxa).
  destruct (shape_eqb (shape xb) (shape xa)) eqn:E; [|done].
  apply shape_eqb_eq in E. congruence.
Qed.

(** After an addition the new instance is a valid operand, and the
    instances that existed before still are. *)
Lemma Stars__add___valid s a b oa ob xa xb :
  valid_Stars s a oa xa -> valid_Stars s b ob xb -> shape xa = shape xb ->
  exists ab s' o,
    Stars__add__ pow10 log10 a b s = Ok ab s' /\
    valid_Stars s' ab o (np_add2 xa xb) /\
    untouched s s' /\
    cells s !! ab = None /\ cells s !! sfzh o = None /\
    (forall l o' x, valid_Stars s l o' x -> valid_Stars s' l o' x).
Proof.
  intros Ha Hb Hsh.
  destruct (Stars__add___Ok s a b oa ob xa xb Ha Hb Hsh)
    as (o & news & Hrun & Hlen & Ho1 & Ho2 & Ho3).
  eexists _, _, o. split; [exact Hrun|].
  destruct Ha as (Hoa & Hbins & Hxa).
  split; [|split; [|split; [|split]]].
  - repeat split; cbn [cells].
    + rewrite lookup_app_r by lia.
      replace (length (cells s) + 5 - length (cells s))%nat with 5%nat by lia.
      destruct news as [|? [|? [|? [|? [|]]]]]; done.
    + rewrite Ho1, Ho2. by apply usable_bins_grown.
    + rewrite Ho3. by apply list_lookup_middle.
  - apply untouched_grown.
  - apply lookup_ge_None. lia.
  - rewrite Ho3. apply lookup_ge_None. lia.
  - intros l o' x. apply valid_Stars_grown.
Qed.
End addition.

Lemma bind_Raise_inv {St A B} (m : M St A) (k : A -> M St B) s e s' :
  bind m k s = Raise e s' ->
  m s = Raise e s' \/ exists a s1, m s = Ok a s1 /\ k a s1 = Raise e s'.
Proof.
  unfold bind. destruct (m s) as [a s1|e1 s1]; [eauto|].
  intros [= -> ->]. by left.
Qed.

Lemma read1_Raise l s e s' : read1 l s = Raise e s' -> e = TypeError.
Proof. unfold read1. repeat case_match; by intros [=]. Qed.

Lemma read2_Raise l s e s' : read2 l s = Raise e s' -> e = TypeError.
Proof. unfold read2. repeat case_match; by intros [=]. Qed.

Lemma alloc_Raise c s e s' : alloc c s = Raise e s' -> False.
Proof. done. Qed.

Lemma getitem_Raise {St} l i (s : St) e s' :
  lift (getitem l i) s = Raise e s' -> e = IndexError.
Proof. unfold lift, getitem. destruct (l !! i); simpl; by intros [=]. Qed.

Lemma getitem_last_Raise {St} l (s : St) e s' :
  lift (getitem_last l) s = Raise e s' -> e = IndexError.
Proof. unfold lift, getitem_last. destruct (last l); simpl; by intros [=]. Qed.

Section more_builders.
Variable pow10 : npfloat -> npfloat.
Variable log10 : npfloat -> npfloat.
Variable quad : (npfloat -> npfloat) -> Z -> Z -> npfloat.


Lemma np_sum2_zeros_Fin n m :
  exists q, np_sum2 (np_zeros2 n m) = Fin q /\ (q == 0)%Q.
Proof.
  apply equiv_Fin_inv. unfold np_sum2, np_zeros2. cbn [rows].
  apply np_sum_concat_zeros.
Qed.

(** With a ["dist"] distribution the loop is skipped, the warning is
    printed, and the zero-filled density is divided by its own sum. *)
Lemma generate_sfzh_dist_run s la_loc lz_loc la lz sfh mh mass :
  cells s !! la_loc = Some (Arr1 la) -> la <> [] ->
  cells s !! lz_loc = Some (Arr1 lz) -> lz <> [] ->
  ZDist.dist mh = "dist"%string ->
  let r := generate_sfzh pow10 log10 quad la_loc lz_loc sfh mh mass s in
  raised r = None /\
  stdout (final_store r) = stdout s ++ ["WARNING: NOT YET IMPLEMENTED"%string] /\
  returned_sfzh r
  = Some (NdArray2 (length lz)
            (replicate (length la) (replicate (length lz) NaN))).
Proof.
  intros Hla Hne Hlz Hnz Hd.
  set (c1 := cells s ++ [Arr1 (map pow10 la)]).
  set (out := stdout s ++ ["WARNING: NOT YET IMPLEMENTED"%string]).
  set (a := NdArray2 (length lz)
              (replicate (length la) (replicate (length lz) NaN))).
  set (s5 := MkStore (c1 ++ [Arr2 a]) out).
  destruct (Stars__init___Ok pow10 log10 s5 la_loc lz_loc (length c1)
              (Some sfh) (Some mh) la lz a)
    as (o & Hinit & Ho1 & Ho2 & Ho3 & _).
  { subst s5 c1. cbn [cells]. by do 2 apply lookup_grown. }
  { done. }
  { subst s5 c1. cbn [cells]. by do 2 apply lookup_grown. }
  { done. }
  { subst s5. cbn [cells]. apply lookup_new. }
  destruct (np_sum2_zeros_Fin (length la) (length lz)) as (q & Hq & Hq0).
  assert (generate_sfzh pow10 log10 quad la_loc lz_loc sfh mh mass s
          = Ok (length (cells s5) + 4)%nat
              (MkStore (cells s5 ++
                        [Arr1 (map pow10 la); Arr1 (map log10 lz);
                         Arr1 (np_sum_axis1 a); Arr1 (np_sum_axis0 a);
                         Obj o]) out)) as Hrun.
  { unfold generate_sfzh.
    rewrite (bind_read1 _ _ _ _ Hla), bind_alloc. fold c1.
    rewrite (bind_read1 _ lz) by (by apply lookup_grown).
    rewrite bind_alloc. cbn [cells stdout].
    rewrite Hd. cbn [String.eqb Ascii.eqb Bool.eqb].
    rewrite bind_ret, bind_print. cbn [cells stdout]. fold out.
    rewrite (bind_read2 _ (np_zeros2 (length la) (length lz)))
      by apply lookup_new.
    unfold itruediv2, imul2.
    unfold bind at 1.
    rewrite (bind_read2 _ (np_zeros2 (length la) (length lz)))
      by apply lookup_new.
    unfold write at 1. cbn [cells stdout]. rewrite insert_new.
    unfold bind at 1.
    erewrite bind_read2 by apply lookup_new.
    unfold write at 1. cbn [cells stdout]. rewrite insert_new.
    replace (np_map2 _ (np_map2 _ _)) with a; [exact Hinit|].
    rewrite Hq. unfold np_map2, np_zeros2, a. cbn [rows ncols]. f_equal.
    rewrite !fmap_replicate. do 2 f_equal. unfold fzero. simpl.
    rewrite (Qeq_eq_bool _ _ Hq0). reflexivity. }
  intros r. subst r. rewrite Hrun. split; [done|]. split; [done|].
  eapply returned_sfzh_Ok.
  - cbn [cells]. rewrite lookup_app_r by lia.
    by replace (length (cells s5) + 4 - length (cells s5))%nat
      with 4%nat by lia.
  - rewrite Ho3. cbn [cells]. subst s5. cbn [cells].
    apply lookup_grown, lookup_new.
Qed.

(** [Stars.__init__] never raises [ShapeMismatch]: it does not look at
    the shape of the density. *)
Lemma Stars__init___raises s la_loc lz_loc sfzh_loc f g e s' :
  Stars__init__ pow10 log10 la_loc lz_loc sfzh_loc f g s = Raise e s' ->
  e = TypeError \/ e = IndexError.
Proof.
  unfold Stars__init__. intros H.
  repeat first
    [ apply bind_Raise_inv in H as [H | (? & ? & _ & H)];
      [ first [ apply read1_Raise in H | apply read2_Raise in H
              | apply getitem_Raise in H | apply getitem_last_Raise in H
              | by apply alloc_Raise in H ];
        by auto
      | ]
    | by apply alloc_Raise in H ].
Qed.
End more_builders.

Lemma lookup_offset {A} (l news : list A) i :
  (l ++ news) !! (length l + i)%nat = news !! i.
Proof.
  rewrite lookup_app_r by lia. f_equal. lia.
Qed.





Section total_mass.
Variable pow10 : npfloat -> npfloat.
Variable log10 : npfloat -> npfloat.
Variable quad : (npfloat -> npfloat) -> Z -> Z -> npfloat.


End total_mass.


Section bin_claims.
Variable pow10 : npfloat -> npfloat.
Variable log10 : npfloat -> npfloat.
Variable quad : (npfloat -> npfloat) -> Z -> Z -> npfloat.



(** C7 (amended).  [Stars.__init__] does not compare the shape of the
    density with the lengths of the bin arrays: whenever the bin arrays
    are arrays that are not empty and the density is a two dimensional
    array, of any shape, it returns a new instance that refers to the
    three arrays it was given, and changes no existing object. *)
Theorem Stars__init___ignores_shape s la_loc lz_loc sfzh_loc f g a :
  usable_bins s la_loc lz_loc ->
  cells s !! sfzh_loc = Some (Arr2 a) ->
  exists l s' o,
    Stars__init__ pow10 log10 la_loc lz_loc sfzh_loc f g s = Ok l s' /\
    cells s' !! l = Some (Obj o) /\
    log10ages o = la_loc /\ metallicities o = lz_loc /\
    sfzh o = sfzh_loc /\ cells s' !! sfzh_loc = Some (Arr2 a) /\
    untouched s s'.
Proof.
  intros (la & lz & Hla & Hne & Hlz & Hnz) Ha.
  destruct (Stars__init___Ok pow10 log10 s la_loc lz_loc sfzh_loc f g
              la lz a Hla Hne Hlz Hnz Ha)
    as (o & Hrun & Ho1 & Ho2 & Ho3 & _).
  eexists _, _, o. split; [exact Hrun|]. cbn [cells].
  split; [by rewrite lookup_offset|].
  repeat (split; [done|]).
  split; [by apply lookup_grown|]. apply untouched_grown.
Qed.
End bin_claims.

Section addition_claims.
Variable pow10 : npfloat -> npfloat.
Variable log10 : npfloat -> npfloat.

Lemma Stars__add___returns s a b oa ob xa xb :
  valid_Stars s a oa xa -> valid_Stars s b ob xb -> shape xa = shape xb ->
  exists ab s' o,
    Stars__add__ pow10 log10 a b s = Ok ab s' /\
    returned_sfzh (Ok ab s') = Some (np_add2 xa xb) /\
    valid_Stars s' ab o (np_add2 xa xb) /\
    untouched s s' /\
    cells s !! ab = None /\ cells s !! sfzh o = None /\
    (forall l o' x, valid_Stars s l o' x -> valid_Stars s' l o' x).
Proof.
  intros Ha Hb Hsh.
  destruct (Stars__add___valid pow10 log10 s a b oa ob xa xb Ha Hb Hsh)
    as (ab & s' & o & Hrun & Hv & Hrest).
  exists ab, s', o. split; [done|]. split; [|done].
  destruct Hv as (Ho & _ & Hx). by eapply returned_sfzh_Ok.
Qed.


(** C6 (amended).  [Stars.__add__] compares the shapes of the two
    densities, not the bin grids: it returns normally exactly when the
    shapes are equal, and otherwise raises [InconsistentAddition] and
    leaves the store as it found it. *)
Theorem Stars__add___shape_check s a b oa ob xa xb :
  valid_Stars s a oa xa -> valid_Stars s b ob xb ->
  match Stars__add__ pow10 log10 a b s with
  | Ok ab s' =>
      shape xa = shape xb /\ untouched s s' /\ cells s !! ab = None
  | Raise e s' =>
      shape xa <> shape xb /\ e = InconsistentAddition /\ s' = s
  end.
Proof.
  intros Ha Hb. destruct (decide (shape xa = shape xb)) as [Hsh|Hsh].
  - destruct (Stars__add___returns s a b oa ob xa xb Ha Hb Hsh)
      as (ab & s' & o & Hrun & _ & _ & Hun & Hnew & _).
    rewrite Hrun. done.
  - destruct Ha as (Hoa & _ & Hxa), Hb as (Hob & _ & Hxb).
    rewrite (Stars__add___Raise pow10 log10 s a b oa ob xa xb) by done.
    done.
Qed.
End addition_claims.

Section template_facts.
Import Agn.
Variable Base : Type.
Variable Kwargs : Type.
Variable EmissionModel__init__ : string -> npfloat -> Kwargs -> exn + Base.
Variable Sed__init__ : array_arg -> array_arg -> exn + Sed.
Variable measure_bolometric_luminosity : Sed -> exn + unyt_quantity.


End template_facts.






(** C1, the code at a failing input.  On a ["dist"] distribution
    [generate_sfzh] does not raise [UnimplementedFunctionality]: it prints
    a warning and returns an instance whose density is [nan] everywhere. *)
Theorem generate_sfzh_dist_returns :
  let r := generate_sfzh pow10_int log10_floor quad_midpoint 0 1
             (constant_sfh 1) (distributed (1 # 100)) (Fin 1) example_store in
  raised r = None /\
  raised r <> Some UnimplementedFunctionality /\
  stdout (final_store r) = ["WARNING: NOT YET IMPLEMENTED"%string] /\
  returned_sfzh r = Some (NdArray2 2 [[NaN; NaN]; [NaN; NaN]]).
Proof.
  destruct (generate_sfzh_dist_run pow10_int log10_floor quad_midpoint
              example_store 0%nat 1%nat [Fin 6; Fin 7]
              [Fin (1 # 100); Fin (1 # 10)] (constant_sfh 1)
              (distributed (1 # 100)) (Fin 1))
    as (Hr & Hout & Hret); [done..|].
  cbn zeta in Hr, Hout, Hret |- *.
  rewrite Hr. split; [done|]. split; [done|]. split; [exact Hout|exact Hret].
Qed.

(** C7, an instance: bins of length two and a three by three density. *)
Lemma Stars__init___ignores_shape_witness :
  exists l s' o,
    Stars__init__ pow10_int log10_floor 0 1 2 None None mismatched
    = Ok l s' /\
    cells s' !! l = Some (Obj o) /\
    log10ages o = 0%nat /\ metallicities o = 1%nat /\
    sfzh o = 2%nat /\ cells s' !! 2%nat = Some (Arr2 (np_zeros2 3 3)) /\
    untouched mismatched s'.
Proof.
  apply (Stars__init___ignores_shape pow10_int log10_floor mismatched
           0%nat 1%nat 2%nat None None (np_zeros2 3 3)).
  - exists [Fin 6; Fin 7], [Fin (1 # 100); Fin (1 # 10)].
    repeat split; (reflexivity || discriminate).
  - reflexivity.
Defined.

(** C7 as stated fails: with bins of length two and a three by three
    density the construction returns normally. *)
Lemma Stars__init___shape_counterexample :
  array1_at mismatched 0 = Some [Fin 6; Fin 7] /\
  array1_at mismatched 1 = Some [Fin (1 # 100); Fin (1 # 10)] /\
  (exists a, array2_at mismatched 2 = Some a /\ shape a = (3%nat, 3%nat)) /\
  raised (Stars__init__ pow10_int log10_floor 0 1 2 None None mismatched)
  = None.
Proof.
  split; [reflexivity|]. split; [reflexivity|]. split.
  - eexists. split; reflexivity.
  - vm_compute. reflexivity.
Qed.


(** C6, an instance: a two by two density plus a three by three one. *)
Lemma Stars__add___shape_check_witness :
  match Stars__add__ pow10_int log10_floor 8 13 unequal_shapes with
  | Ok ab s' =>
      shape (NdArray2 2 [[Fin 1; Fin 0]; [Fin 0; Fin 0]])
      = shape (np_zeros2 3 3) /\
      untouched unequal_shapes s' /\ cells unequal_shapes !! ab = None
  | Raise e s' =>
      shape (NdArray2 2 [[Fin 1; Fin 0]; [Fin 0; Fin 0]])
      <> shape (np_zeros2 3 3) /\
      e = InconsistentAddition /\ s' = unequal_shapes
  end.
Proof.
  eapply (Stars__add___shape_check pow10_int log10_floor
            unequal_shapes 8%nat 13%nat).
  - split; [reflexivity|]. split; [|reflexivity].
    exists [Fin 6; Fin 7], [Fin (1 # 100); Fin (1 # 10)].
    repeat split; (reflexivity || discriminate).
  - split; [reflexivity|]. split; [|reflexivity].
    exists [Fin 6; Fin 7], [Fin (1 # 100); Fin (1 # 10)].
    repeat split; (reflexivity || discriminate).
Defined.

(** C6 as stated fails: two populations on different age grids, with
    densities of the same shape, are added without an error. *)
Lemma Stars__add___grids_counterexample :
  exists oa ob,
    cells two_grids !! 8%nat = Some (Obj oa) /\
    cells two_grids !! 14%nat = Some (Obj ob) /\
    bin_grids two_grids oa <> bin_grids two_grids ob /\
    raised (Stars__add__ pow10_int log10_floor 8 14 two_grids) = None.
Proof.
  eexists _, _. split; [reflexivity|]. split; [reflexivity|]. split.
  - vm_compute. discriminate.
  - vm_compute. reflexivity.
Qed.

(** An addition that is refused: a two by two density plus a three by
    three one. *)
Example Stars__add___refused :
  raised
    ((big <- Stars__init__ pow10_int log10_floor 0 1 2 None None ;;
      Stars__add__ pow10_int log10_floor 8 big) mismatched)
  = Some InconsistentAddition.
Proof. vm_compute. reflexivity. Qed.




(** ** Marginal histories *)







Section stars_more.
Variable pow10 : npfloat -> npfloat.
Variable log10 : npfloat -> npfloat.

(** Everything [Stars.__init__] leaves behind when it returns. *)
Lemma Stars__init___full s la_loc lz_loc sfzh_loc f g la lz a :
cells s !! la_loc = Some (Arr1 la) -> la <> [] ->
cells s !! lz_loc = Some (Arr1 lz) -> lz <> [] ->
cells s !! sfzh_loc = Some (Arr2 a) ->
exists o la0 la1 lz0 lz1,
  Stars__init__ pow10 log10 la_loc lz_loc sfzh_loc f g s
  = Ok (length (cells s) + 4)%nat
      (MkStore (cells s ++ [Arr1 (map pow10 la); Arr1 (map log10 lz);
                            Arr1 (np_sum_axis1 a); Arr1 (np_sum_axis0 a);
                            Obj o])
         (stdout s)) /\
  o = MkStars la_loc (length (cells s)) (la0, la1)
        lz_loc (lz0, lz1)
        (length (cells s) + 1)%nat (log10 lz0, log10 lz1)
        sfzh_loc (length (cells s) + 2)%nat (length (cells s) + 3)%nat
        f g
        (if single_valued (neighbour_differences lz) then Some "Z"%string
         else if single_valued (neighbour_differences (map log10 lz))
              then Some "log10Z"%string else None) /\
  head la = Some la0 /\ last la = Some la1 /\
  head lz = Some lz0 /\ last lz = Some lz1.
Proof.
intros Hla Hne Hlz Hnz Ha.
destruct la as [|x la]; [done|]. destruct lz as [|z lz]; [done|].
destruct (last (x :: la)) as [xl|] eqn:Hxl; [|by apply last_None in Hxl].
destruct (last (z :: lz)) as [zl|] eqn:Hzl; [|by apply last_None in Hzl].
assert (getitem_last (x :: la) = inr xl) as Hgx
  by (unfold getitem_last; by rewrite Hxl).
assert (getitem_last (z :: lz) = inr zl) as Hgz
  by (unfold getitem_last; by rewrite Hzl).
assert (getitem_last (map log10 (z :: lz)) = inr (log10 zl)) as Hgw.
{ unfold getitem_last. by rewrite fmap_last, Hzl. }
exists (MkStars la_loc (length (cells s)) (x, xl) lz_loc (z, zl)
          (length (cells s) + 1)%nat (log10 z, log10 zl)
          sfzh_loc (length (cells s) + 2)%nat (length (cells s) + 3)%nat
          f g
          (if single_valued (neighbour_differences (z :: lz))
           then Some "Z"%string
           else if single_valued
                     (neighbour_differences (map log10 (z :: lz)))
                then Some "log10Z"%string else None)),
  x, xl, z, zl.
split; [|done].
unfold Stars__init__.
rewrite (bind_read1 _ _ _ _ Hla), bind_alloc.
rewrite (bind_lift _ _ _ _ (getitem_first _ _)), (bind_lift _ _ _ _ Hgx).
rewrite (bind_read1 _ (z :: lz)) by (by apply lookup_grown).
rewrite (bind_lift _ _ _ _ (getitem_first _ _)), (bind_lift _ _ _ _ Hgz).
rewrite bind_alloc. cbn [cells stdout].
rewrite (bind_lift _ _ _ (log10 z)) by reflexivity.
rewrite (bind_lift _ _ _ _ Hgw).
rewrite (bind_read2 _ a) by (by do 2 apply lookup_grown).
rewrite !bind_alloc. unfold alloc. cbn [cells stdout].
rewrite !length_app. cbn [length].
rewrite <- !app_assoc. cbn [app].
replace (length (cells s) + 1 + 1)%nat with (length (cells s) + 2)%nat by lia.
replace (length (cells s) + 2 + 1)%nat with (length (cells s) + 3)%nat by lia.
replace (length (cells s) + 3 + 1)%nat with (length (cells s) + 4)%nat by lia.
reflexivity.
Qed.


(** X2.  With an empty [log10ages] or an empty [metallicities] array
  [Stars.__init__] raises [IndexError]; the objects that existed before
  are unchanged and no instance is created. *)
Theorem Stars__init___empty_bins s la_loc lz_loc sfzh_loc f g la lz :
cells s !! la_loc = Some (Arr1 la) ->
cells s !! lz_loc = Some (Arr1 lz) ->
la = [] \/ lz = [] ->
let r := Stars__init__ pow10 log10 la_loc lz_loc sfzh_loc f g s in
raised r = Some IndexError /\
cells (final_store r) = cells s ++ [Arr1 (map pow10 la)] /\
stdout (final_store r) = stdout s.
Proof.
intros Hla Hlz Hempty r. subst r. unfold Stars__init__.
rewrite (bind_read1 _ _ _ _ Hla), bind_alloc.
destruct la as [|x la].
- done.
- destruct Hempty as [?| ->]; [done|].
  destruct (getitem_last_cons x la) as [xl Hxl].
  rewrite (bind_lift _ _ _ _ (getitem_first _ _)), (bind_lift _ _ _ _ Hxl).
  rewrite (bind_read1 _ []) by (by apply lookup_grown).
  done.
Qed.

(** X3.  The classification of the metallicity grid on short arrays: an
  array of one metallicity has no grid type, and an array of two
  metallicities is always a linear grid (["Z"]), whatever the values. *)
Theorem Stars__init___metallicity_grid_short
  s la_loc lz_loc sfzh_loc f g la lz a :
cells s !! la_loc = Some (Arr1 la) -> la <> [] ->
cells s !! lz_loc = Some (Arr1 lz) ->
cells s !! sfzh_loc = Some (Arr2 a) ->
(length lz = 1 \/ length lz = 2)%nat ->
exists o,
  returned_Stars (Stars__init__ pow10 log10 la_loc lz_loc sfzh_loc f g s)
  = Some o /\
  metallicity_grid o
  = if decide (length lz = 1%nat) then None else Some "Z"%string.
Proof.
intros Hla Hne Hlz Ha Hlen.
assert (lz <> []) as Hnz by (intros ->; simpl in Hlen; lia).
destruct (Stars__init___full s la_loc lz_loc sfzh_loc f g la lz a
            Hla Hne Hlz Hnz Ha) as (o & ? & ? & ? & ? & Hrun & Ho & _).
exists o. split.
- rewrite Hrun. unfold returned_Stars. cbn [cells].
  by rewrite lookup_offset.
- rewrite Ho. cbn [metallicity_grid].
  destruct lz as [|z0 [|z1 [|z2 lz]]]; simpl in Hlen; try lia; done.
Qed.
End stars_more.

(** ** More on addition *)




Section addition_more.
Variable pow10 : npfloat -> npfloat.
Variable log10 : npfloat -> npfloat.

Lemma Stars__add___full s a b oa ob xa xb :
valid_Stars s a oa xa -> valid_Stars s b ob xb -> shape xa = shape xb ->
exists o,
  Stars__add__ pow10 log10 a b s
  = Ok (length (cells s) + 5)%nat
      (MkStore (cells s ++
                [Arr2 (np_add2 xa xb);
                 Arr1 (map pow10 (default [] (array1_at s (log10ages oa))));
                 Arr1 (map log10
                         (default [] (array1_at s (metallicities oa))));
                 Arr1 (np_sum_axis1 (np_add2 xa xb));
                 Arr1 (np_sum_axis0 (np_add2 xa xb)); Obj o])
         (stdout s)) /\
  log10ages o = log10ages oa /\ metallicities o = metallicities oa /\
  sfzh o = length (cells s) /\
  sf_hist o = (length (cells s) + 3)%nat /\
  metal_hist o = (length (cells s) + 4)%nat /\
  sf_hist_func o = None /\ metal_hist_func o = None.
Proof.
intros (Hoa & (la & lz & Hla & Hne & Hlz & Hnz) & Hxa) (Hob & _ & Hxb) Hsh.
set (s1 := MkStore (cells s ++ [Arr2 (np_add2 xa xb)]) (stdout s)).
destruct (Stars__init___full pow10 log10 s1 (log10ages oa)
            (metallicities oa) (length (cells s)) None None la lz
            (np_add2 xa xb))
  as (o & ? & ? & ? & ? & Hinit & Ho & _).
{ by apply lookup_grown. }
{ done. }
{ by apply lookup_grown. }
{ done. }
{ apply lookup_new. }
exists o. split.
- unfold Stars__add__.
  rewrite (bind_read_obj _ _ _ _ Hoa), (bind_read_obj _ _ _ _ Hob).
  rewrite (bind_read2 _ _ _ _ Hxb), (bind_read2 _ _ _ _ Hxa).
  rewrite (proj2 (shape_eqb_eq xb xa)) by done.
  rewrite bind_alloc. fold s1. rewrite Hinit.
  subst s1. cbn [cells stdout]. rewrite length_app. cbn [length].
  rewrite <- app_assoc. cbn [app].
  unfold array1_at. rewrite Hla, Hlz. cbn [default].
  f_equal. lia.
- rewrite Ho. subst s1. cbn. rewrite length_app. cbn. repeat split; lia.
Qed.

(** X4.  The sum of two instances takes the bin arrays of the left
  operand by reference, gets a density array of its own, and has no
  star formation or metallicity function, whatever the operands had. *)
Theorem Stars__add___result s a b oa ob xa xb :
valid_Stars s a oa xa -> valid_Stars s b ob xb -> shape xa = shape xb ->
exists o,
  returned_Stars (Stars__add__ pow10 log10 a b s) = Some o /\
  log10ages o = log10ages oa /\ metallicities o = metallicities oa /\
  sfzh o <> sfzh oa /\ sfzh o <> sfzh ob /\
  sf_hist_func o = None /\ metal_hist_func o = None.
Proof.
intros Ha Hb Hsh.
destruct (Stars__add___full s a b oa ob xa xb Ha Hb Hsh)
  as (o & Hrun & Ho1 & Ho2 & Ho3 & _ & _ & Hf & Hg).
exists o. split.
{ rewrite Hrun. unfold returned_Stars. cbn [cells].
  by rewrite lookup_offset. }
repeat (split; [done|]).
destruct Ha as (_ & _ & Hxa), Hb as (_ & _ & Hxb).
apply lookup_lt_Some in Hxa, Hxb.
repeat split; try done; lia.
Qed.

End addition_more.

(** ** More on the builders *)




Section builders_more.
Variable pow10 : npfloat -> npfloat.
Variable log10 : npfloat -> npfloat.
Variable quad : (npfloat -> npfloat) -> Z -> Z -> npfloat.


(** X7.  With a distribution type other than ["delta"] nothing is
  integrated: [generate_sfzh] returns a density that is [nan]
  everywhere, and the warning is printed for ["dist"] only. *)
Theorem generate_sfzh_not_delta s la_loc lz_loc la lz sfh mh mass :
cells s !! la_loc = Some (Arr1 la) -> la <> [] ->
cells s !! lz_loc = Some (Arr1 lz) -> lz <> [] ->
ZDist.dist mh <> "delta"%string ->
let r := generate_sfzh pow10 log10 quad la_loc lz_loc sfh mh mass s in
returned_sfzh r
= Some (NdArray2 (length lz)
          (replicate (length la) (replicate (length lz) NaN))) /\
stdout (final_store r)
= if String.eqb (ZDist.dist mh) "dist"
  then stdout s ++ ["WARNING: NOT YET IMPLEMENTED"%string]
  else stdout s.
Proof.
intros Hla Hne Hlz Hnz Hd.
destruct (String.eqb (ZDist.dist mh) "dist") eqn:Edist.
{ apply String.eqb_eq in Edist.
  destruct (generate_sfzh_dist_run pow10 log10 quad s la_loc lz_loc la lz
              sfh mh mass Hla Hne Hlz Hnz Edist) as (_ & Hout & Hret).
  done. }
apply String.eqb_neq in Hd.
set (c1 := cells s ++ [Arr1 (map pow10 la)]).
set (a := NdArray2 (length lz)
            (replicate (length la) (replicate (length lz) NaN))).
set (s5 := MkStore (c1 ++ [Arr2 a]) (stdout s)).
destruct (Stars__init___Ok pow10 log10 s5 la_loc lz_loc (length c1)
            (Some sfh) (Some mh) la lz a)
  as (o & Hinit & Ho1 & Ho2 & Ho3 & _).
{ subst s5 c1. cbn [cells]. by do 2 apply lookup_grown. }
{ done. }
{ subst s5 c1. cbn [cells]. by do 2 apply lookup_grown. }
{ done. }
{ subst s5. cbn [cells]. apply lookup_new. }
destruct (np_sum2_zeros_Fin (length la) (length lz)) as (q & Hq & Hq0).
assert (generate_sfzh pow10 log10 quad la_loc lz_loc sfh mh mass s
        = Ok (length (cells s5) + 4)%nat
            (MkStore (cells s5 ++
                      [Arr1 (map pow10 la); Arr1 (map log10 lz);
                       Arr1 (np_sum_axis1 a); Arr1 (np_sum_axis0 a);
                       Obj o]) (stdout s))) as Hrun.
{ unfold generate_sfzh.
  rewrite (bind_read1 _ _ _ _ Hla), bind_alloc. fold c1.
  rewrite (bind_read1 _ lz) by (by apply lookup_grown).
  rewrite bind_alloc. cbn [cells stdout].
  rewrite Hd, Edist. rewrite !bind_ret.
  rewrite (bind_read2 _ (np_zeros2 (length la) (length lz)))
    by apply lookup_new.
  unfold itruediv2, imul2.
  unfold bind at 1.
  rewrite (bind_read2 _ (np_zeros2 (length la) (length lz)))
    by apply lookup_new.
  unfold write at 1. cbn [cells stdout]. rewrite insert_new.
  unfold bind at 1.
  erewrite bind_read2 by apply lookup_new.
  unfold write at 1. cbn [cells stdout]. rewrite insert_new.
  replace (np_map2 _ (np_map2 _ _)) with a; [exact Hinit|].
  rewrite Hq. unfold np_map2, np_zeros2, a. cbn [rows ncols]. f_equal.
  rewrite !fmap_replicate. do 2 f_equal. unfold fzero. simpl.
  rewrite (Qeq_eq_bool _ _ Hq0). reflexivity. }
cbn zeta. rewrite Hrun. split; [|done].
eapply returned_sfzh_Ok.
- cbn [cells]. by rewrite lookup_offset.
- rewrite Ho3. cbn [cells]. subst s5. cbn [cells].
  apply lookup_grown, lookup_new.
Qed.

(** X8.  [generate_instant_sfzh] on an empty [log10ages] or an empty
  [metallicities] array raises [ValueError] (from [argmin]); the
  density array has been allocated by then and nothing that existed
  before has changed. *)
Theorem generate_instant_sfzh_empty_bins
  s la_loc lz_loc la lz log10age metallicity stellar_mass :
cells s !! la_loc = Some (Arr1 la) ->
cells s !! lz_loc = Some (Arr1 lz) ->
la = [] \/ lz = [] ->
let r := generate_instant_sfzh pow10 log10 la_loc lz_loc
           log10age metallicity stellar_mass s in
raised r = Some ValueError /\
cells (final_store r)
= cells s ++ [Arr2 (np_zeros2 (length la) (length lz))] /\
stdout (final_store r) = stdout s.
Proof.
intros Hla Hlz Hempty r. subst r. unfold generate_instant_sfzh.
rewrite (bind_read1 _ _ _ _ Hla), (bind_read1 _ _ _ _ Hlz), bind_alloc.
destruct la as [|x la].
- done.
- destruct Hempty as [?| ->]; [done|].
  destruct (nearest_index_nonempty (x :: la) log10age) as [ia Hia];
    [done|].
  rewrite (bind_lift _ _ _ _ Hia). done.
Qed.
End builders_more.

(** ** The entries of the density of [generate_sfzh] *)

Section loop_columns.
Variable quad : (npfloat -> npfloat) -> Z -> Z -> npfloat.

Lemma sfzh_loop_columns av lz sfh mh sfzh_loc xs :
  lz <> [] ->
  forall k pre extra min_age s bs,
    length pre = k ->
    cells s !! sfzh_loc
    = Some (Arr2 (NdArray2 (length lz)
                    (pre ++ replicate (length xs + extra)
                              (replicate (length lz) fzero)))) ->
    loop_bounds av (zip (seq k (length xs)) xs) min_age = inr bs ->
    exists cols,
      length cols = length xs /\
      Forall (fun c => (c < length lz)%nat) cols /\
      Forall2 (fun c x => nearest_index lz (ZDist.Z mh x) = inr c)
        cols xs /\
      sfzh_loop quad av lz sfh mh sfzh_loc
        (zip (seq k (length xs)) xs) min_age s
      = Ok tt
          (MkStore
             (<[sfzh_loc :=
                  Arr2 (NdArray2 (length lz)
                          (pre ++
                           zip_with
                             (fun c w =>
                                <[c := w]> (replicate (length lz) fzero))
                             cols (integrals quad (SFH.sfr sfh) bs) ++
                           replicate extra (replicate (length lz) fzero)))]>
                (cells s))
             (stdout s)).
Proof.
  intros Hlz. induction xs as [|x xs IH];
    intros k pre extra min_age s bs Hk Hcell Hbs.
  - simpl in *. injection Hbs as <-. exists []. split; [done|].
    split; [done|]. split; [constructor|]. simpl. unfold ret. f_equal. symmetry.
    by apply store_insert_id.
  - cbn [length seq zip zip_with] in Hbs |- *.
    cbn [loop_bounds] in Hbs.
    destruct (getitem av (k + 1)) as [|a1] eqn:E1; [done|].
    destruct (getitem av k) as [|a0] eqn:E0; [done|].
    destruct (py_int (np_mean2 a1 a0)) as [|hi] eqn:Ehi; [done|].
    destruct (loop_bounds av (zip (seq (S k) (length xs)) xs) hi)
      as [|bs'] eqn:Ebs; [done|].
    injection Hbs as <-.
    destruct (nearest_index_nonempty lz (ZDist.Z mh x) Hlz) as [iZ HiZ].
    pose proof (nearest_index_lt _ _ _ HiZ) as HiZlt.
    set (zeros := replicate (length lz) fzero) in *.
    set (sf := quad (SFH.sfr sfh) min_age hi).
    set (row := <[iZ := sf]> zeros).
    set (s1 := MkStore
                 (<[sfzh_loc :=
                      Arr2 (NdArray2 (length lz)
                              ((pre ++ [row]) ++
                               replicate (length xs + extra) zeros))]>
                    (cells s))
                 (stdout s)).
    destruct (IH (S k) (pre ++ [row]) extra hi s1 bs')
      as (cols & Hlen & Hcols & Hnear & Hrun).
    { rewrite length_app. simpl. lia. }
    { subst s1. cbn [cells].
      apply list_lookup_insert_eq. by eapply lookup_lt_Some. }
    { done. }
    exists (iZ :: cols). split; [simpl; lia|].
    split; [by constructor|]. split; [by constructor|].
    cbn [sfzh_loop].
    rewrite (bind_lift _ _ _ _ E1), (bind_lift _ _ _ _ E0).
    rewrite (bind_lift _ _ _ _ Ehi), (bind_lift _ _ _ _ HiZ).
    rewrite (bind_read2 _ _ _ _ Hcell).
    assert (setitem2
              (NdArray2 (length lz)
                 (pre ++ replicate (S (length xs) + extra) zeros))
              k iZ sf
            = inr (NdArray2 (length lz)
                     ((pre ++ [row]) ++
                      replicate (length xs + extra) zeros))) as Hset.
    { unfold setitem2. cbn [rows ncols].
      rewrite lookup_app_r by lia.
      replace (k - length pre)%nat with 0%nat by lia. cbn.
      rewrite decide_True by done. do 2 f_equal.
      rewrite insert_app_r_alt by lia.
      replace (k - length pre)%nat with 0%nat by lia. cbn.
      by rewrite <- app_assoc. }
    rewrite (bind_lift _ _ _ _ Hset), bind_write. fold s1.
    rewrite Hrun. subst s1. cbn [cells stdout].
    rewrite list_insert_insert_eq.
    do 4 f_equal. cbn [integrals map zip_with].
    rewrite <- app_assoc. reflexivity.
Qed.

End loop_columns.

Section delta_entries.
Variable pow10 : npfloat -> npfloat.
Variable log10 : npfloat -> npfloat.
Variable quad : (npfloat -> npfloat) -> Z -> Z -> npfloat.

Lemma generate_sfzh_delta_full s la_loc lz_loc la lz sfh mh mass bs :
  cells s !! la_loc = Some (Arr1 la) -> la <> [] ->
  cells s !! lz_loc = Some (Arr1 lz) -> lz <> [] ->
  ZDist.dist mh = "delta"%string ->
  integration_bounds (map pow10 la) = inr bs ->
  exists cols o,
    length cols = length bs /\
    Forall (fun c => (c < length lz)%nat) cols /\
    Forall2 (fun c x => nearest_index lz (ZDist.Z mh x) = inr c)
      cols (removelast (map pow10 la)) /\
    let a := normalised
               (raw_density (length lz) cols
                  (integrals quad (SFH.sfr sfh) bs)) mass in
    generate_sfzh pow10 log10 quad la_loc lz_loc sfh mh mass s
    = Ok (length (cells s) + 6)%nat
        (MkStore (cells s ++ [Arr1 (map pow10 la); Arr2 a;
                              Arr1 (map pow10 la); Arr1 (map log10 lz);
                              Arr1 (np_sum_axis1 a); Arr1 (np_sum_axis0 a);
                              Obj o])
           (stdout s)) /\
    log10ages o = la_loc /\ metallicities o = lz_loc /\
    sfzh o = S (length (cells s)) /\
    sf_hist_func o = Some sfh /\ metal_hist_func o = Some mh.
Proof.
  intros Hla Hne Hlz Hnz Hd Hbs.
  set (av := map pow10 la) in *.
  set (c1 := cells s ++ [Arr1 av]).
  assert (length la = S (length (removelast av))) as Hlen.
  { subst av. destruct la as [|x la]; [done|].
    cbn [map]. rewrite <- length_removelast_cons. simpl.
    by rewrite length_map. }
  set (s2 := MkStore (c1 ++ [Arr2 (np_zeros2 (length la) (length lz))])
               (stdout s)).
  destruct (sfzh_loop_columns quad av lz sfh mh (length c1) (removelast av) Hnz
              0%nat [] 1%nat 0%Z s2 bs) as (cols & Hcl & Hcols & Hnear & Hloop).
  { done. }
  { subst s2. cbn [cells]. rewrite lookup_new. unfold np_zeros2.
    cbn [app]. by rewrite Hlen, Nat.add_1_r. }
  { exact Hbs. }
  assert (length cols = length bs) as Hcb.
  { rewrite Hcl. apply loop_bounds_length in Hbs. rewrite Hbs.
    unfold enumerate. rewrite length_zip, length_seq. lia. }
  set (raw := raw_density (length lz) cols
                (integrals quad (SFH.sfr sfh) bs)).
  set (a := normalised raw mass).
  set (s5 := MkStore (c1 ++ [Arr2 a]) (stdout s)).
  destruct (Stars__init___Ok pow10 log10 s5 la_loc lz_loc (length c1)
              (Some sfh) (Some mh) la lz a)
    as (o & Hinit & Ho1 & Ho2 & Ho3 & Ho4 & Ho5).
  { subst s5 c1. cbn [cells]. by do 2 apply lookup_grown. }
  { done. }
  { subst s5 c1. cbn [cells]. by do 2 apply lookup_grown. }
  { done. }
  { subst s5. cbn [cells]. apply lookup_new. }
  exists cols, o. split; [done|]. split; [done|]. split; [done|].
  cbn zeta.
  split; [|split; [done|split; [done|split; [|done]]]].
  - unfold generate_sfzh.
    rewrite (bind_read1 _ _ _ _ Hla), bind_alloc. fold av. fold c1.
    rewrite (bind_read1 _ lz) by (by apply lookup_grown).
    rewrite bind_alloc. cbn [cells stdout]. fold s2.
    rewrite Hd. cbn [String.eqb Ascii.eqb Bool.eqb].
    unfold bind at 1.
    rewrite (bind_read1 _ av)
      by (subst s2 c1; cbn [cells]; apply lookup_grown, lookup_new).
    unfold enumerate. rewrite Hloop.
    subst s2. cbn [cells stdout app].
    rewrite insert_new. fold raw.
    rewrite bind_ret.
    rewrite (bind_read2 _ raw) by apply lookup_new.
    unfold itruediv2, imul2.
    unfold bind at 1. rewrite (bind_read2 _ raw) by apply lookup_new.
    unfold write at 1. cbn [cells stdout]. rewrite insert_new.
    unfold bind at 1.
    rewrite (bind_read2 _ (np_map2 (fun y => fdiv y (np_sum2 raw)) raw))
      by apply lookup_new.
    unfold write at 1. cbn [cells stdout]. rewrite insert_new.
    fold (normalised raw mass). fold a. fold s5.
    rewrite Hinit. subst s5 c1. cbn [cells stdout].
    rewrite !length_app. cbn [length].
    rewrite <- !app_assoc. cbn [app]. f_equal. lia.
  - rewrite Ho3. subst c1. rewrite length_app. simpl. lia.
Qed.
End delta_entries.



Section delta_more.
Variable pow10 : npfloat -> npfloat.
Variable log10 : npfloat -> npfloat.
Variable quad : (npfloat -> npfloat) -> Z -> Z -> npfloat.


(** X10.  [generate_sfzh] on a ["delta"] distribution returns normally
  as soon as the integration bounds can be computed, also when the
  integrals sum to zero.  It changes no object that existed before; the
  new instance refers to the caller's bin arrays, to a new density
  array, and keeps the two functions it was given. *)
Theorem generate_sfzh_frame s la_loc lz_loc la lz sfh mh mass bs :
cells s !! la_loc = Some (Arr1 la) -> la <> [] ->
cells s !! lz_loc = Some (Arr1 lz) -> lz <> [] ->
ZDist.dist mh = "delta"%string ->
integration_bounds (map pow10 la) = inr bs ->
exists l s' o,
  generate_sfzh pow10 log10 quad la_loc lz_loc sfh mh mass s = Ok l s' /\
  untouched s s' /\
  cells s !! l = None /\ cells s' !! l = Some (Obj o) /\
  log10ages o = la_loc /\ metallicities o = lz_loc /\
  cells s !! sfzh o = None /\
  sf_hist_func o = Some sfh /\ metal_hist_func o = Some mh.
Proof.
intros Hla Hne Hlz Hnz Hd Hbs.
destruct (generate_sfzh_delta_full pow10 log10 quad s la_loc lz_loc la lz
            sfh mh mass bs Hla Hne Hlz Hnz Hd Hbs)
  as (cols & o & _ & _ & _ & Hrun & Ho1 & Ho2 & Ho3 & Ho4 & Ho5).
cbn zeta in Hrun.
eexists _, _, o. split; [exact Hrun|].
split; [apply untouched_grown|].
split; [apply lookup_ge_None; lia|].
split; [cbn [cells]; by rewrite lookup_offset|].
repeat (split; [done|]).
split; [|done]. rewrite Ho3. apply lookup_ge_None. lia.
Qed.
End delta_more.

(** ** The geometry of the integration intervals *)







(** ** [generate_sfzh_from_array] *)








Section from_array_facts.
Variable pow10 : npfloat -> npfloat.
Variable log10 : npfloat -> npfloat.




End from_array_facts.

(** ** More on [Template.__init__] *)

Section template_more.
Import Agn.
Variable Base : Type.
Variable Kwargs : Type.
Variable EmissionModel__init__ : string -> npfloat -> Kwargs -> exn + Base.
Variable Sed__init__ : array_arg -> array_arg -> exn + Sed.
Variable measure_bolometric_luminosity : Sed -> exn + unyt_quantity.

(** X14.  Once the base class is initialised, a file name that is not
  empty makes [Template.__init__] raise [UnimplementedFunctionality]
  unless an array without units is given, also when [lam] and [lnu] are
  both given with units; no [Sed] has been built. *)
Theorem Template_filename_unimplemented
  label filename lam lnu fesc kwargs (w : world Base) b :
EmissionModel__init__ label fesc kwargs = inr b ->
truthy filename = true ->
(forall v, lam <> RawArray v) -> (forall v, lnu <> RawArray v) ->
exists w',
  Template__init__ Base Kwargs EmissionModel__init__ Sed__init__
    measure_bolometric_luminosity label filename lam lnu fesc kwargs w
  = Raise UnimplementedFunctionality w' /\
  seds Base w' = seds Base w /\
  sed Base (self Base w') = sed Base (self Base w) /\
  _is_template Base (self Base w') = _is_template Base (self Base w).
Proof.
intros Hb Hf Hlam Hlnu. unfold Template__init__.
rewrite (bind_lift _ _ _ _ Hb).
destruct lam as [|v|u]; [|by destruct (Hlam v)|];
  (destruct lnu as [|v'|u']; [|by destruct (Hlnu v')|]);
  (eexists; split; [unfold bind; simpl; rewrite Hf; reflexivity|]; done).
Qed.

(** X15.  With both arrays given with units and no file name, once the
  base class, the [Sed] and its bolometric luminosity are obtained,
  [Template.__init__] returns normally: one new [Sed] is stored, with
  its wavelengths as built and its [lnu] divided by the bolometric
  luminosity; the instance refers to it, records the luminosity as its
  normalisation and is flagged as a template. *)
Theorem Template_normalised
  label filename a b fesc kwargs (w : world Base) base0 sd n :
EmissionModel__init__ label fesc kwargs = inr base0 ->
truthy filename = false ->
Sed__init__ (WithUnits a) (WithUnits b) = inr sd ->
measure_bolometric_luminosity sd = inr n ->
Template__init__ Base Kwargs EmissionModel__init__ Sed__init__
  measure_bolometric_luminosity label filename (WithUnits a) (WithUnits b)
  fesc kwargs w
= Ok tt
    (MkWorld Base
       (MkTemplate Base (Some base0) (Some (length (seds Base w)))
          (Some n) (Some true))
       (seds Base w ++
        [MkSed (lam sd)
           (MkUnytArray (map (fun y => fdiv y (value n)) (values (lnu sd)))
              (units (lnu sd)))])).
Proof.
intros Hb Hf Hsd Hn. unfold Template__init__.
rewrite (bind_lift _ _ _ _ Hb).
unfold bind, set_base, ret, new_Sed, set_sed, read_Sed, lift,
  set_normalisation, Sed_lnu_itruediv, set_is_template.
cbn [is_not_None isinstance_unyt_array negb andb self seds].
rewrite Hf, Hsd. cbn [self seds].
rewrite lookup_new, Hn. cbn [self seds base sed normalisation _is_template].
by rewrite lookup_new, insert_new.
Qed.

(** X16.  Whatever the base class and [Sed] do, [Template.__init__]
  returns normally only without a file name and with both [lam] and
  [lnu] given with units; exactly one [Sed] has then been built and the
  instance is flagged as a template. *)
Theorem Template_returns_only_if
  label filename lam lnu fesc kwargs (w w' : world Base) :
Template__init__ Base Kwargs EmissionModel__init__ Sed__init__
  measure_bolometric_luminosity label filename lam lnu fesc kwargs w
= Ok tt w' ->
truthy filename = false /\
(exists a, lam = WithUnits a) /\ (exists b, lnu = WithUnits b) /\
length (seds Base w') = S (length (seds Base w)) /\
sed Base (self Base w') = Some (length (seds Base w)) /\
_is_template Base (self Base w') = Some true.
Proof.
unfold Template__init__.
destruct (EmissionModel__init__ label fesc kwargs) as [e|base0] eqn:Hb.
{ done. }
rewrite (bind_lift (inr base0) _ _ base0 eq_refl).
destruct lam as [|v|a]; try done; destruct lnu as [|v'|b]; try done;
  unfold bind, set_base, ret, new_Sed, set_sed, read_Sed, lift,
    set_normalisation, Sed_lnu_itruediv, set_is_template, raise;
  cbn [is_not_None isinstance_unyt_array negb andb self seds];
  destruct (truthy filename) eqn:Hf; try done.
destruct (Sed__init__ (WithUnits a) (WithUnits b)) as [e|sd]; [done|].
cbn [self seds]. rewrite lookup_new.
destruct (measure_bolometric_luminosity sd) as [e|n]; [done|].
cbn [self seds base sed normalisation _is_template].
rewrite lookup_new. intros [= <-]. cbn [self seds sed _is_template].
rewrite length_insert, length_app. cbn [length].
repeat split; eauto. lia.
Qed.
End template_more.

(** * The composite models: keyword arguments *)

Section keyword_maps.

Import Models.

Lemma without_cons n names (m : kwargs_t) :
without (n :: names) m = delete n (without names m).
Proof. reflexivity. Qed.

Lemma without_lookup names (m : kwargs_t) k :
without names m !! k = if decide (k ∈ names) then None else m !! k.
Proof.
induction names as [|n names IH]; [done|].
rewrite without_cons. destruct (decide (n = k)) as [->|Hne].
- rewrite lookup_delete_eq. rewrite decide_True; [done|constructor].
- rewrite lookup_delete_ne, IH by done.
  destruct (decide (k ∈ names)) as [Hin|Hin].
  + rewrite decide_True; [done|by constructor].
  + rewrite decide_False; [done|]. intros Hk.
    apply elem_of_cons in Hk as [->|Hk]; [done|by apply Hin].
Qed.

Lemma without_in names (m : kwargs_t) k :
k ∈ names -> without names m !! k = None.
Proof. intros Hk. rewrite without_lookup. by rewrite decide_True. Qed.

Lemma without_notin names (m : kwargs_t) k :
k ∉ names -> without names m !! k = m !! k.
Proof. intros Hk. rewrite without_lookup. by rewrite decide_False. Qed.

Lemma clean_lookup (K : kwargs_t) k :
clean K -> k ∈ reserved -> K !! k = None.
Proof.
intros Hc Hk. exact (proj1 (Forall_forall _ _) Hc k Hk).
Qed.

Lemma clean_disjoint (E K : kwargs_t) :
clean K -> dom E ⊆ list_to_set reserved -> E ##ₘ K.
Proof.
intros Hc Hd. apply map_disjoint_dom. intros i Hi HK.
apply Hd in Hi. apply elem_of_list_to_set in Hi.
apply elem_of_dom in HK as [v Hv].
rewrite (clean_lookup K i Hc Hi) in Hv. discriminate.
Qed.

Lemma without_disjoint names (E m : kwargs_t) :
dom E ⊆ list_to_set names -> E ##ₘ without names m.
Proof.
intros Hd. apply map_disjoint_dom. intros i Hi HK.
apply Hd in Hi. apply elem_of_list_to_set in Hi.
apply elem_of_dom in HK as [v Hv].
rewrite without_in in Hv by done. discriminate.
Qed.

Lemma without_union_clean names (E K : kwargs_t) :
clean K -> names ⊆ reserved ->
without names (E ∪ K) = without names E ∪ K.
Proof.
intros Hc Hs. induction names as [|n names IH]; [done|].
rewrite !without_cons, IH, delete_union.
- f_equal. apply delete_id, clean_lookup; [done|]. apply Hs. constructor.
- intros k Hk. apply Hs. by constructor.
Qed.

(** What is left of [E ∪ without names' m] once [names] are taken out,
  when [E] only has keys of [names] and [names'] is part of [names]. *)
Lemma without_union_without names names' (E m : kwargs_t) :
dom E ⊆ list_to_set names -> names' ⊆ names ->
without names (E ∪ without names' m) = without names m.
Proof.
intros Hd Hs. apply map_eq. intros k. rewrite !without_lookup.
destruct (decide (k ∈ names)) as [Hk|Hk]; [done|].
rewrite lookup_union_r.
- apply without_notin. intros Hk'. by apply Hk, Hs.
- apply not_elem_of_dom. intros Hin. apply Hk.
  apply Hd in Hin. by apply elem_of_list_to_set in Hin.
Qed.

Lemma without_same_elements names1 names2 (m : kwargs_t) :
(forall k, k ∈ names1 <-> k ∈ names2) ->
without names1 m = without names2 m.
Proof.
intros H. apply map_eq. intros k. rewrite !without_lookup.
destruct (decide (k ∈ names1)) as [Hk|Hk].
- rewrite decide_True; [done|by apply H].
- rewrite decide_False; [done|]. intros Hk'. by apply Hk, H.
Qed.

Lemma call_disjoint {A} (f : kwargs_t -> R A) (E K : kwargs_t) t :
E ##ₘ K -> call f E K t = f (E ∪ K) t.
Proof. intros H. unfold call. by rewrite decide_True. Qed.

Lemma call_clash {A} (f : kwargs_t -> R A) (E K : kwargs_t) k t :
is_Some (E !! k) -> is_Some (K !! k) ->
call f E K t = (inl PyTypeError, t).
Proof.
intros [x Hx] [y Hy]. unfold call. rewrite decide_False; [done|].
intros Hd. exact (proj1 (map_disjoint_spec E K) Hd k x y Hx Hy).
Qed.


Lemma without_dom names (E : kwargs_t) :
dom E ⊆ list_to_set names -> without names E = ∅.
Proof.
intros Hd. apply map_eq. intros k. rewrite without_lookup, lookup_empty.
destruct (decide (k ∈ names)) as [Hk|Hk]; [done|].
apply not_elem_of_dom. intros Hin. apply Hk.
apply Hd in Hin. by apply elem_of_list_to_set in Hin.
Qed.

Lemma without_union_dom names (E K : kwargs_t) :
clean K -> names ⊆ reserved -> dom E ⊆ list_to_set names ->
without names (E ∪ K) = K.
Proof.
intros Hc Hs Hd. rewrite without_union_clean, without_dom by done.
apply (left_id _ _).
Qed.

Lemma optional_union_l k d (E m : kwargs_t) v :
E !! k = Some v -> optional k d (E ∪ m) = v.
Proof.
intros H. unfold optional. by rewrite (lookup_union_Some_l _ _ _ _ H).
Qed.

Lemma optional_union_without k d names (E m : kwargs_t) :
E !! k = None -> k ∉ names ->
optional k d (E ∪ without names m) = optional k d m.
Proof.
intros HE Hk. unfold optional.
by rewrite lookup_union_r, without_notin.
Qed.

(** Keywords given explicitly against keyword arguments of which only part
  is known to avoid the reserved names. *)
Lemma disjoint_partly_clean names names' (E args : kwargs_t) :
clean (without names args) ->
dom E ⊆ list_to_set reserved ->
(forall k, k ∈ dom E -> k ∈ names -> k ∈ names') ->
E ##ₘ without names' args.
Proof.
intros Hc Hd Hn. apply map_disjoint_dom. intros k Hk HW.
apply elem_of_dom in HW as [v Hv]. rewrite without_lookup in Hv.
destruct (decide (k ∈ names')) as [|Hk']; [done|].
assert (k ∉ names) as Hnot by (intros Hin; by apply Hk', Hn).
apply Hd, elem_of_list_to_set in Hk.
pose proof (clean_lookup _ k Hc Hk) as HK.
rewrite without_notin in HK by done. congruence.
Qed.

End keyword_maps.

Section runs.

Import Models.

Ltac in_reserved := unfold reserved; set_solver.

Variable EmissionModel__init__ : loc -> kwargs_t -> option exn.
Hypothesis accepts : forall self args, EmissionModel__init__ self args = None.

Lemma base_init_accepts self args t :
base_init EmissionModel__init__ self args t =
  (inr tt, MkTrace (allocated t) (calls t ++ [MkCall self args])).
Proof. unfold base_init. by rewrite accepts. Qed.

Ltac leaf Hg :=
unfold rbind, new_object, required; rewrite Hg; cbn [rlift];
rewrite call_disjoint by (apply clean_disjoint; [done | in_reserved]);
rewrite base_init_accepts; reflexivity.

Lemma DiscIncidentEmission_run args g t :
args !! "grid" = Some g ->
clean (without ["grid"; "label"] args) ->
DiscIncidentEmission EmissionModel__init__ args t =
  (inr (allocated t),
   MkTrace (S (allocated t))
     (calls t ++
      [MkCall (allocated t)
         ({[ "grid" := g;
             "label" := optional "label" (VStr "disc_incident") args;
             "extract" := VStr "incident";
             "line_region" := VStr "nlr" ]}
          ∪ without ["grid"; "label"] args)])).
Proof. intros Hg Hc. unfold DiscIncidentEmission. leaf Hg. Qed.

Lemma NLRTransmittedEmission_run args g t :
args !! "grid" = Some g ->
clean (without ["grid"; "label"; "covering_fraction"] args) ->
NLRTransmittedEmission EmissionModel__init__ args t =
  (inr (allocated t),
   MkTrace (S (allocated t))
     (calls t ++
      [MkCall (allocated t)
         ({[ "grid" := g;
             "label" := optional "label" (VStr "nlr_transmitted") args;
             "fesc" := optional "covering_fraction" tenth args;
             "extract" := VStr "transmitted";
             "line_region" := VStr "nlr" ]}
          ∪ without ["grid"; "label"; "covering_fraction"] args)])).
Proof. intros Hg Hc. unfold NLRTransmittedEmission. leaf Hg. Qed.

Lemma BLRTransmittedEmission_run args g t :
args !! "grid" = Some g ->
clean (without ["grid"; "label"; "covering_fraction"] args) ->
BLRTransmittedEmission EmissionModel__init__ args t =
  (inr (allocated t),
   MkTrace (S (allocated t))
     (calls t ++
      [MkCall (allocated t)
         ({[ "grid" := g;
             "label" := optional "label" (VStr "blr_transmitted") args;
             "fesc" := optional "covering_fraction" tenth args;
             "extract" := VStr "transmitted";
             "line_region" := VStr "blr" ]}
          ∪ without ["grid"; "label"; "covering_fraction"] args)])).
Proof. intros Hg Hc. unfold BLRTransmittedEmission. leaf Hg. Qed.

Lemma TorusEmission_run args model scale t :
args !! "torus_emission_model" = Some model ->
args !! "scale_by" = Some scale ->
clean (without ["torus_emission_model"; "scale_by"; "label"] args) ->
TorusEmission EmissionModel__init__ args t =
  (inr (allocated t),
   MkTrace (S (allocated t))
     (calls t ++
      [MkCall (allocated t)
         ({[ "label" := optional "label" (VStr "torus") args;
             "dust_emission_model" := model;
             "dust_lum_intrinsic" := scale ]}
          ∪ without ["torus_emission_model"; "scale_by"; "label"] args)])).
Proof.
intros Hm Hs Hc. unfold TorusEmission, rbind, new_object, required.
rewrite Hm, Hs. cbn [rlift].
rewrite call_disjoint by (apply clean_disjoint; [done | in_reserved]).
rewrite base_init_accepts. reflexivity.
Qed.

Lemma DiscEscapedEmission_run args g p q t :
args !! "grid" = Some g ->
optional "covering_fraction_nlr" tenth args = VFloat p ->
optional "covering_fraction_blr" tenth args = VFloat q ->
clean (without ["grid"; "label"; "covering_fraction_nlr";
                "covering_fraction_blr"] args) ->
DiscEscapedEmission EmissionModel__init__ args t =
  (inr (allocated t),
   MkTrace (S (allocated t))
     (calls t ++
      [MkCall (allocated t)
         ({[ "grid" := g;
             "label" := optional "label" (VStr "disc_escaped") args;
             "extract" := VStr "incident";
             "fesc" := VFloat (fsub (fsub (Fin 1) p) q) ]}
          ∪ without ["grid"; "label"; "covering_fraction_nlr";
                     "covering_fraction_blr"] args)])).
Proof.
intros Hg Hp Hq Hc. unfold DiscEscapedEmission, rbind, new_object, required.
rewrite Hg, Hp, Hq. cbn [rlift py_sub].
rewrite call_disjoint by (apply clean_disjoint; [done | in_reserved]).
rewrite base_init_accepts. reflexivity.
Qed.

Lemma DiscTranmittedEmission_run args g t :
args !! "grid" = Some g ->
clean (without ["grid"; "label"; "covering_fraction_blr";
                "covering_fraction_nlr"] args) ->
DiscTranmittedEmission EmissionModel__init__ args t =
  (inr (allocated t),
   MkTrace (3 + allocated t)
     (calls t ++
      [MkCall (1 + allocated t)
         ({[ "grid" := g;
             "label" := VStr "nlr_transmitted";
             "fesc" := optional "covering_fraction_nlr" tenth args;
             "extract" := VStr "transmitted";
             "line_region" := VStr "nlr" ]}
          ∪ without ["grid"; "label"; "covering_fraction_blr";
                     "covering_fraction_nlr"] args);
       MkCall (2 + allocated t)
         ({[ "grid" := g;
             "label" := VStr "blr_transmitted";
             "fesc" := optional "covering_fraction_blr" tenth args;
             "extract" := VStr "transmitted";
             "line_region" := VStr "blr" ]}
          ∪ without ["grid"; "label"; "covering_fraction_blr";
                     "covering_fraction_nlr"] args);
       MkCall (allocated t)
         ({[ "grid" := g;
             "label" := optional "label" (VStr "disc_transmitted") args;
             "combine" := VPair (VModel (1 + allocated t))
                                (VModel (2 + allocated t)) ]}
          ∪ without ["grid"; "label"; "covering_fraction_blr";
                     "covering_fraction_nlr"] args)])).
Proof.
intros Hg Hc. unfold DiscTranmittedEmission.
set (K := without _ args) in *.
unfold rbind at 1, new_object at 1. unfold rbind at 1, required.
rewrite Hg. cbn [rlift].
unfold rbind at 1.
rewrite call_disjoint by (apply clean_disjoint; [done | in_reserved]).
rewrite (NLRTransmittedEmission_run _ g)
  by first [ by apply lookup_union_Some_l
           | rewrite without_union_dom; [done|done|in_reserved|set_solver] ].
rewrite without_union_dom by first [done|in_reserved|set_solver].
rewrite (optional_union_l "label" _ _ _ (VStr "nlr_transmitted")) by done.
rewrite (optional_union_l "covering_fraction" _ _ _
           (optional "covering_fraction_nlr" tenth args)) by done.
unfold rbind at 1.
rewrite call_disjoint by (apply clean_disjoint; [done | in_reserved]).
rewrite (BLRTransmittedEmission_run _ g)
  by first [ by apply lookup_union_Some_l
           | rewrite without_union_dom; [done|done|in_reserved|set_solver] ].
rewrite without_union_dom by first [done|in_reserved|set_solver].
rewrite (optional_union_l "label" _ _ _ (VStr "blr_transmitted")) by done.
rewrite (optional_union_l "covering_fraction" _ _ _
           (optional "covering_fraction_blr" tenth args)) by done.
unfold rbind at 1.
rewrite call_disjoint by (apply clean_disjoint; [done | in_reserved]).
rewrite base_init_accepts. cbn [allocated calls rret].
rewrite <- !app_assoc. reflexivity.
Qed.


Lemma DiscEmission_run args g p q t :
args !! "grid" = Some g ->
optional "covering_fraction_nlr" tenth args = VFloat p ->
optional "covering_fraction_blr" tenth args = VFloat q ->
clean (without ["grid"; "label"; "covering_fraction_nlr";
                "covering_fraction_blr"] args) ->
DiscEmission EmissionModel__init__ args t =
  (inr (allocated t),
   MkTrace (5 + allocated t)
     (calls t ++
      [MkCall (2 + allocated t)
         ({[ "grid" := g;
             "label" := VStr "nlr_transmitted";
             "fesc" := VFloat p;
             "extract" := VStr "transmitted";
             "line_region" := VStr "nlr" ]}
          ∪ without ["grid"; "label"; "covering_fraction_nlr";
                     "covering_fraction_blr"] args);
       MkCall (3 + allocated t)
         ({[ "grid" := g;
             "label" := VStr "blr_transmitted";
             "fesc" := VFloat q;
             "extract" := VStr "transmitted";
             "line_region" := VStr "blr" ]}
          ∪ without ["grid"; "label"; "covering_fraction_nlr";
                     "covering_fraction_blr"] args);
       MkCall (1 + allocated t)
         ({[ "grid" := g;
             "label" := VStr "disc_transmitted";
             "combine" := VPair (VModel (2 + allocated t))
                                (VModel (3 + allocated t)) ]}
          ∪ without ["grid"; "label"; "covering_fraction_nlr";
                     "covering_fraction_blr"] args);
       MkCall (4 + allocated t)
         ({[ "grid" := g;
             "label" := VStr "disc_escaped";
             "extract" := VStr "incident";
             "fesc" := VFloat (fsub (fsub (Fin 1) p) q) ]}
          ∪ without ["grid"; "label"; "covering_fraction_nlr";
                     "covering_fraction_blr"] args);
       MkCall (allocated t)
         ({[ "grid" := g;
             "label" := optional "label" (VStr "disc") args;
             "combine" := VPair (VModel (1 + allocated t))
                                (VModel (4 + allocated t)) ]}
          ∪ without ["grid"; "label"] args)])).
Proof.
intros Hg Hp Hq Hc. unfold DiscEmission.
set (K := without ["grid"; "label"; "covering_fraction_nlr";
                   "covering_fraction_blr"] args) in *.
set (W := without ["grid"; "label"] args).
assert (HKT : forall E : kwargs_t,
           dom E ⊆ list_to_set ["grid"; "label"] ->
           without ["grid"; "label"; "covering_fraction_blr";
                    "covering_fraction_nlr"] (E ∪ W) = K).
{ intros E HE. unfold W. rewrite without_union_without.
  - apply without_same_elements. set_solver.
  - set_solver.
  - set_solver. }
assert (HKE : forall E : kwargs_t,
           dom E ⊆ list_to_set ["grid"; "label"] ->
           without ["grid"; "label"; "covering_fraction_nlr";
                    "covering_fraction_blr"] (E ∪ W) = K).
{ intros E HE. unfold W. rewrite without_union_without.
  - done.
  - set_solver.
  - set_solver. }
assert (Hopt : forall (E : kwargs_t) k,
           E !! k = None -> k ∉ ["grid"; "label"] ->
           optional k tenth (E ∪ W) = optional k tenth args).
{ intros E k HE Hk. by apply optional_union_without. }
unfold rbind at 1, new_object at 1. unfold rbind at 1, required.
rewrite Hg. cbn [rlift].
unfold rbind at 1.
rewrite call_disjoint by (apply without_disjoint; set_solver).
rewrite (DiscTranmittedEmission_run _ g)
  by first [ by apply lookup_union_Some_l
           | rewrite HKT; [done|set_solver] ].
rewrite HKT by set_solver.
rewrite (optional_union_l "label" _ _ _ (VStr "disc_transmitted")) by done.
rewrite !Hopt by first [done|set_solver]. rewrite Hp, Hq.
unfold rbind at 1.
rewrite call_disjoint by (apply without_disjoint; set_solver).
rewrite (DiscEscapedEmission_run _ g p q)
  by first [ by apply lookup_union_Some_l
           | rewrite HKE; [done|set_solver]
           | rewrite Hopt by first [done|set_solver]; done ].
rewrite HKE by set_solver.
rewrite (optional_union_l "label" _ _ _ (VStr "disc_escaped")) by done.
unfold rbind at 1.
rewrite call_disjoint
  by (apply (disjoint_partly_clean
               ["grid"; "label"; "covering_fraction_nlr";
                "covering_fraction_blr"]);
      [done | in_reserved | set_solver]).
rewrite base_init_accepts. cbn [allocated calls rret].
rewrite <- !app_assoc. reflexivity.
Qed.

Lemma AGNIntrinsicEmission_run args g p q t :
args !! "grid" = Some g ->
optional "covering_fraction_nlr" tenth args = VFloat p ->
optional "covering_fraction_blr" tenth args = VFloat q ->
clean (without ["grid"; "label"; "covering_fraction_nlr";
                "covering_fraction_blr"] args) ->
let K := without ["grid"; "label"; "covering_fraction_nlr";
                  "covering_fraction_blr"] args in
let built :=
  [MkCall (1 + allocated t)
     ({[ "grid" := g;
         "label" := VStr "disc_incident";
         "extract" := VStr "incident";
         "line_region" := VStr "nlr" ]} ∪ K);
   MkCall (4 + allocated t)
     ({[ "grid" := g;
         "label" := VStr "nlr_transmitted";
         "fesc" := VFloat p;
         "extract" := VStr "transmitted";
         "line_region" := VStr "nlr" ]} ∪ K);
   MkCall (5 + allocated t)
     ({[ "grid" := g;
         "label" := VStr "blr_transmitted";
         "fesc" := VFloat q;
         "extract" := VStr "transmitted";
         "line_region" := VStr "blr" ]} ∪ K);
   MkCall (3 + allocated t)
     ({[ "grid" := g;
         "label" := VStr "disc_transmitted";
         "combine" := VPair (VModel (4 + allocated t))
                            (VModel (5 + allocated t)) ]} ∪ K);
   MkCall (6 + allocated t)
     ({[ "grid" := g;
         "label" := VStr "disc_escaped";
         "extract" := VStr "incident";
         "fesc" := VFloat (fsub (fsub (Fin 1) p) q) ]} ∪ K);
   MkCall (2 + allocated t)
     ({[ "grid" := g;
         "label" := VStr "disc";
         "combine" := VPair (VModel (3 + allocated t))
                            (VModel (6 + allocated t));
         "covering_fraction_nlr" := VFloat p;
         "covering_fraction_blr" := VFloat q ]} ∪ K)] in
AGNIntrinsicEmission EmissionModel__init__ args t =
  match getattr_dust_emission_model g with
  | inl e => (inl e, MkTrace (7 + allocated t) (calls t ++ built))
  | inr dust =>
      (inr (allocated t),
       MkTrace (8 + allocated t)
         (calls t ++ built ++
          [MkCall (7 + allocated t)
             ({[ "label" := VStr "torus";
                 "dust_emission_model" := dust;
                 "dust_lum_intrinsic" := VModel (1 + allocated t) ]} ∪ K);
           MkCall (allocated t)
             ({[ "grid" := g;
                 "label" := optional "label" (VStr "intrinsic") args;
                 "combine" := VPair (VModel (2 + allocated t))
                                    (VModel (7 + allocated t)) ]} ∪ K)]))
  end.
Proof.
intros Hg Hp Hq Hc K built. unfold AGNIntrinsicEmission.
fold K. fold K in Hc.
rewrite Hp, Hq.
unfold rbind at 1, new_object at 1. unfold rbind at 1, required.
rewrite Hg. cbn [rlift].
(* the incident model *)
unfold rbind at 1.
rewrite call_disjoint by (apply clean_disjoint; [done | in_reserved]).
rewrite (DiscIncidentEmission_run _ g)
  by first [ by apply lookup_union_Some_l
           | rewrite without_union_dom; [done|done|in_reserved|set_solver] ].
rewrite without_union_dom by first [done|in_reserved|set_solver].
rewrite (optional_union_l "label" _ _ _ (VStr "disc_incident")) by done.
(* the disc *)
unfold rbind at 1.
rewrite call_disjoint by (apply clean_disjoint; [done | in_reserved]).
rewrite (DiscEmission_run _ g p q)
  by first [ by apply lookup_union_Some_l
           | by apply optional_union_l
           | rewrite without_union_dom; [done|done|in_reserved|set_solver] ].
rewrite without_union_dom by first [done|in_reserved|set_solver].
rewrite (optional_union_l "label" _ _ _ (VStr "disc")) by done.
rewrite without_union_clean by first [done|in_reserved].
rewrite (assoc_L (∪)).
(* the torus *)
unfold rbind at 1.
destruct (getattr_dust_emission_model g) as [e|dust]; cbn [rlift].
{ cbn [allocated calls]. rewrite <- !app_assoc. reflexivity. }
unfold rbind at 1.
rewrite call_disjoint by (apply clean_disjoint; [done | in_reserved]).
rewrite (TorusEmission_run _ dust (VModel (S (allocated t))))
  by first [ by apply lookup_union_Some_l
           | rewrite without_union_dom; [done|done|in_reserved|set_solver] ].
rewrite without_union_dom by first [done|in_reserved|set_solver].
rewrite (optional_union_l "label" _ _ _ (VStr "torus")) by done.
(* the model itself *)
unfold rbind at 1.
rewrite call_disjoint by (apply clean_disjoint; [done | in_reserved]).
rewrite base_init_accepts. cbn [allocated calls rret].
rewrite <- !app_assoc. reflexivity.
Qed.

(** X17. [AGNIntrinsicEmission.__init__], given a grid that has a dust
  emission model, covering fractions that are numbers (or left to their
  default 0.1) and no other keyword that the classes of the file use
  themselves, and a base initialiser that accepts every call, creates
  eight instances and calls the base initialiser eight times, in this
  order and with these arguments: the incident disc model, the NLR and
  BLR transmitted models, the transmitted disc, the escaped disc with
  escape fraction 1 - nlr - blr, the disc (which also receives the two
  covering fractions as keywords), the torus (no grid, scaled by the
  incident model, with the dust emission model of the grid) and last the
  model itself, combining the disc and the torus.  Every call receives
  the remaining keyword arguments. *)
Theorem AGNIntrinsicEmission_calls args name dust p q t :
args !! "grid" = Some (VGrid name dust) ->
optional "covering_fraction_nlr" tenth args = VFloat p ->
optional "covering_fraction_blr" tenth args = VFloat q ->
clean (without ["grid"; "label"; "covering_fraction_nlr";
                "covering_fraction_blr"] args) ->
AGNIntrinsicEmission EmissionModel__init__ args t =
  (inr (allocated t),
   MkTrace (8 + allocated t)
     (calls t ++
      [MkCall (1 + allocated t)
         ({[ "grid" := VGrid name dust;
             "label" := VStr "disc_incident";
             "extract" := VStr "incident";
             "line_region" := VStr "nlr" ]}
          ∪ without ["grid"; "label"; "covering_fraction_nlr";
                     "covering_fraction_blr"] args);
       MkCall (4 + allocated t)
         ({[ "grid" := VGrid name dust;
             "label" := VStr "nlr_transmitted";
             "fesc" := VFloat p;
             "extract" := VStr "transmitted";
             "line_region" := VStr "nlr" ]}
          ∪ without ["grid"; "label"; "covering_fraction_nlr";
                     "covering_fraction_blr"] args);
       MkCall (5 + allocated t)
         ({[ "grid" := VGrid name dust;
             "label" := VStr "blr_transmitted";
             "fesc" := VFloat q;
             "extract" := VStr "transmitted";
             "line_region" := VStr "blr" ]}
          ∪ without ["grid"; "label"; "covering_fraction_nlr";
                     "covering_fraction_blr"] args);
       MkCall (3 + allocated t)
         ({[ "grid" := VGrid name dust;
             "label" := VStr "disc_transmitted";
             "combine" := VPair (VModel (4 + allocated t))
                                (VModel (5 + allocated t)) ]}
          ∪ without ["grid"; "label"; "covering_fraction_nlr";
                     "covering_fraction_blr"] args);
       MkCall (6 + allocated t)
         ({[ "grid" := VGrid name dust;
             "label" := VStr "disc_escaped";
             "extract" := VStr "incident";
             "fesc" := VFloat (fsub (fsub (Fin 1) p) q) ]}
          ∪ without ["grid"; "label"; "covering_fraction_nlr";
                     "covering_fraction_blr"] args);
       MkCall (2 + allocated t)
         ({[ "grid" := VGrid name dust;
             "label" := VStr "disc";
             "combine" := VPair (VModel (3 + allocated t))
                                (VModel (6 + allocated t));
             "covering_fraction_nlr" := VFloat p;
             "covering_fraction_blr" := VFloat q ]}
          ∪ without ["grid"; "label"; "covering_fraction_nlr";
                     "covering_fraction_blr"] args);
       MkCall (7 + allocated t)
         ({[ "label" := VStr "torus";
             "dust_emission_model" := dust;
             "dust_lum_intrinsic" := VModel (1 + allocated t) ]}
          ∪ without ["grid"; "label"; "covering_fraction_nlr";
                     "covering_fraction_blr"] args);
       MkCall (allocated t)
         ({[ "grid" := VGrid name dust;
             "label" := optional "label" (VStr "intrinsic") args;
             "combine" := VPair (VModel (2 + allocated t))
                                (VModel (7 + allocated t)) ]}
          ∪ without ["grid"; "label"; "covering_fraction_nlr";
                     "covering_fraction_blr"] args)])).
Proof.
intros Hg Hp Hq Hc.
rewrite (AGNIntrinsicEmission_run args (VGrid name dust) p q t) by done.
reflexivity.
Qed.




End runs.

Section any_base.

Import Models.

Variable EmissionModel__init__ : loc -> kwargs_t -> option exn.

(** X20. [covering_fraction] cannot be passed through
  [DiscTranmittedEmission]: the class hands its extra keyword arguments
  on to the NLR model together with a [covering_fraction] of its own, so
  Python raises [TypeError] for the repeated keyword.  This happens
  before any call of the base initialiser, whatever that would do; the
  instance itself exists by then. *)
Theorem DiscTranmittedEmission_keyword_clash args g t :
args !! "grid" = Some g ->
is_Some (args !! "covering_fraction") ->
DiscTranmittedEmission EmissionModel__init__ args t =
  (inl PyTypeError, MkTrace (S (allocated t)) (calls t)).
Proof.
intros Hg Hk. unfold DiscTranmittedEmission.
unfold rbind at 1, new_object at 1. unfold rbind at 1, required.
rewrite Hg. cbn [rlift]. unfold rbind at 1.
rewrite (call_clash _ _ _ "covering_fraction"); [reflexivity|done|].
rewrite without_notin by set_solver. done.
Qed.

(** X21. [DiscIncidentEmission] is [NLRIncidentEmission] under another
  default label: it extracts the incident spectrum of the NLR line
  region as well, and with the label made explicit the two initialisers
  do the same, for every set of keyword arguments and every base
  initialiser. *)
Theorem DiscIncidentEmission_as_NLRIncidentEmission args t :
DiscIncidentEmission EmissionModel__init__ args t =
NLRIncidentEmission EmissionModel__init__
  (<["label" := optional "label" (VStr "disc_incident") args]> args) t.
Proof.
unfold DiscIncidentEmission, NLRIncidentEmission.
assert (Hw : without ["grid"; "label"]
               (<["label" := optional "label" (VStr "disc_incident") args]>
                  args)
             = without ["grid"; "label"] args).
{ apply map_eq. intros k. rewrite !without_lookup.
  destruct (decide (k ∈ ["grid"; "label"])) as [Hk|Hk]; [done|].
  apply lookup_insert_ne. intros <-. apply Hk. set_solver. }
assert (Hl : optional "label" (VStr "nlr_incident")
               (<["label" := optional "label" (VStr "disc_incident") args]>
                  args)
             = optional "label" (VStr "disc_incident") args).
{ unfold optional at 1. by rewrite lookup_insert_eq. }
assert (Hg : required "grid"
               (<["label" := optional "label" (VStr "disc_incident") args]>
                  args)
             = required "grid" args).
{ unfold required. by rewrite lookup_insert_ne. }
rewrite Hw, Hl. unfold rbind at 1 3. unfold rbind at 1 3.
rewrite Hg. reflexivity.
Qed.

End any_base.

Section models_examples.

Import Models.

(** X17, an instance: an NLR covering fraction of 0.3, the default BLR
  covering fraction, and one more keyword, [verbose], which reaches
  every call. *)
Lemma AGNIntrinsicEmission_calls_witness :
let args : kwargs_t :=
  {[ "grid" := VGrid "agn" (VStr "greybody");
     "covering_fraction_nlr" := VFloat (Fin (3 # 10));
     "verbose" := VOther "True" ]} in
let r := AGNIntrinsicEmission accepting args start in
r.1 = inr 0%nat /\
allocated r.2 = 8%nat /\
map call_self (calls r.2) = [1; 4; 5; 3; 6; 2; 7; 0]%nat /\
labels (calls r.2)
= map (fun l => Some (VStr l))
    ["disc_incident"; "nlr_transmitted"; "blr_transmitted";
     "disc_transmitted"; "disc_escaped"; "disc"; "torus"; "intrinsic"] /\
fescs (calls r.2)
= [None; Some (VFloat (Fin (3 # 10))); Some (VFloat (Fin (1 # 10))); None;
   Some (VFloat (fsub (fsub (Fin 1) (Fin (3 # 10))) (Fin (1 # 10))));
   None; None; None] /\
Forall (fun c => call_args c !! "verbose" = Some (VOther "True"))
  (calls r.2).
Proof.
intros args r. unfold r.
rewrite (AGNIntrinsicEmission_calls accepting (fun _ _ => eq_refl) args
           "agn" (VStr "greybody") (Fin (3 # 10)) (Fin (1 # 10)) start).
- repeat split; try reflexivity. repeat constructor.
- reflexivity.
- reflexivity.
- reflexivity.
- unfold clean, reserved. repeat constructor.
Defined.



(** X20, an instance: [covering_fraction=0.2]. *)
Lemma DiscTranmittedEmission_keyword_clash_witness :
DiscTranmittedEmission accepting
  {[ "grid" := VGrid "agn" VNone;
     "covering_fraction" := VFloat (Fin (1 # 5)) ]} start
= (inl PyTypeError, MkTrace (S (allocated start)) (calls start)).
Proof.
apply (DiscTranmittedEmission_keyword_clash accepting
         {[ "grid" := VGrid "agn" VNone;
            "covering_fraction" := VFloat (Fin (1 # 5)) ]}
         (VGrid "agn" VNone) start).
- reflexivity.
- eexists. reflexivity.
Defined.

End models_examples.

(** * The further properties on examples *)


(** X2, an instance: an empty [log10ages] array. *)
Lemma Stars__init___empty_bins_witness :
  let s := MkStore [Arr1 []; Arr1 [Fin (1 # 100); Fin (1 # 10)];
                    Arr2 (np_zeros2 0 2)] [] in
  let r := Stars__init__ pow10_int log10_floor 0 1 2 None None s in
  raised r = Some IndexError /\
  cells (final_store r) = cells s ++ [Arr1 (map pow10_int [])] /\
  stdout (final_store r) = stdout s.
Proof.
  apply (Stars__init___empty_bins pow10_int log10_floor
           (MkStore [Arr1 []; Arr1 [Fin (1 # 100); Fin (1 # 10)];
                     Arr2 (np_zeros2 0 2)] [])
           0%nat 1%nat 2%nat None None [] [Fin (1 # 100); Fin (1 # 10)]).
  - reflexivity.
  - reflexivity.
  - left. reflexivity.
Defined.

(** X3, an instance: the two metallicities 0.01 and 5. *)
Lemma Stars__init___metallicity_grid_short_witness :
  exists o,
    returned_Stars
      (Stars__init__ pow10_int log10_floor 0 1 2 None None
         (MkStore [Arr1 [Fin 6; Fin 7]; Arr1 [Fin (1 # 100); Fin 5];
                   Arr2 (np_zeros2 2 2)] []))
    = Some o /\
    metallicity_grid o
    = if decide (length [Fin (1 # 100); Fin 5] = 1%nat) then None
      else Some "Z"%string.
Proof.
  apply (Stars__init___metallicity_grid_short pow10_int log10_floor
           (MkStore [Arr1 [Fin 6; Fin 7]; Arr1 [Fin (1 # 100); Fin 5];
                     Arr2 (np_zeros2 2 2)] [])
           0%nat 1%nat 2%nat None None [Fin 6; Fin 7]
           [Fin (1 # 100); Fin 5] (np_zeros2 2 2)).
  - reflexivity.
  - discriminate.
  - reflexivity.
  - reflexivity.
  - right. reflexivity.
Defined.

(** X4, an instance: the first two populations of [three_populations]. *)
Lemma Stars__add___result_witness :
  exists o,
    returned_Stars (Stars__add__ pow10_int log10_floor 7 13 three_populations)
    = Some o /\
    log10ages o = 0%nat /\ metallicities o = 1%nat /\
    sfzh o <> 2%nat /\ sfzh o <> 8%nat /\
    sf_hist_func o = None /\ metal_hist_func o = None.
Proof.
  apply (Stars__add___result pow10_int log10_floor three_populations
           7%nat 13%nat
           (MkStars 0 3 (Fin 6, Fin 7) 1 (Fin (1 # 100), Fin (1 # 10)) 4
              (Fin (-2), Fin (-1)) 2 5 6 None None (Some "Z"%string))
           (MkStars 0 9 (Fin 6, Fin 7) 1 (Fin (1 # 100), Fin (1 # 10)) 10
              (Fin (-2), Fin (-1)) 8 11 12 None None (Some "Z"%string))
           (NdArray2 2 [[Fin 1; Fin 0]; [Fin 0; Fin 0]])
           (NdArray2 2 [[Fin 0; Fin 0]; [Fin 0; Fin 2]])).
  - split; [reflexivity|]. split; [|reflexivity].
    exists [Fin 6; Fin 7], [Fin (1 # 100); Fin (1 # 10)].
    repeat split; (reflexivity || discriminate).
  - split; [reflexivity|]. split; [|reflexivity].
    exists [Fin 6; Fin 7], [Fin (1 # 100); Fin (1 # 10)].
    repeat split; (reflexivity || discriminate).
  - reflexivity.
Defined.



(** X7, an instance: a distribution of type ["gauss"]. *)
Lemma generate_sfzh_not_delta_witness :
  let r := generate_sfzh pow10_int log10_floor quad_midpoint 0 1
             (constant_sfh 1) (ZDist.Build "gauss" (fun _ => Fin (1 # 100)))
             (Fin 1) example_store in
  returned_sfzh r
  = Some (NdArray2 (length [Fin (1 # 100); Fin (1 # 10)])
            (replicate (length [Fin 6; Fin 7])
               (replicate (length [Fin (1 # 100); Fin (1 # 10)]) NaN))) /\
  stdout (final_store r)
  = if String.eqb "gauss" "dist"
    then stdout example_store ++ ["WARNING: NOT YET IMPLEMENTED"%string]
    else stdout example_store.
Proof.
  apply (generate_sfzh_not_delta pow10_int log10_floor quad_midpoint
           example_store 0%nat 1%nat [Fin 6; Fin 7]
           [Fin (1 # 100); Fin (1 # 10)] (constant_sfh 1)
           (ZDist.Build "gauss" (fun _ => Fin (1 # 100))) (Fin 1)).
  - reflexivity.
  - discriminate.
  - reflexivity.
  - discriminate.
  - discriminate.
Defined.

(** X8, an instance: an empty [metallicities] array. *)
Lemma generate_instant_sfzh_empty_bins_witness :
  let s := MkStore [Arr1 [Fin 6; Fin 7]; Arr1 []] [] in
  let r := generate_instant_sfzh pow10_int log10_floor 0 1
             (Fin 6) (Fin (1 # 100)) (Fin 1) s in
  raised r = Some ValueError /\
  cells (final_store r)
  = cells s ++ [Arr2 (np_zeros2 (length [Fin 6; Fin 7]) (@length npfloat []))] /\
  stdout (final_store r) = stdout s.
Proof.
  apply (generate_instant_sfzh_empty_bins pow10_int log10_floor
           (MkStore [Arr1 [Fin 6; Fin 7]; Arr1 []] [])
           0%nat 1%nat [Fin 6; Fin 7] [] (Fin 6) (Fin (1 # 100)) (Fin 1)).
  - reflexivity.
  - reflexivity.
  - right. reflexivity.
Defined.


(** X10, an instance: a rate that is zero everywhere, on [example_store]. *)
Lemma generate_sfzh_frame_witness :
  exists l s' o,
    generate_sfzh pow10_int log10_floor quad_midpoint 0 1
      (constant_sfh 0) (delta_constant (1 # 100)) (Fin 5) example_store
    = Ok l s' /\
    untouched example_store s' /\
    cells example_store !! l = None /\ cells s' !! l = Some (Obj o) /\
    log10ages o = 0%nat /\ metallicities o = 1%nat /\
    cells example_store !! sfzh o = None /\
    sf_hist_func o = Some (constant_sfh 0) /\
    metal_hist_func o = Some (delta_constant (1 # 100)).
Proof.
  apply (generate_sfzh_frame pow10_int log10_floor quad_midpoint
           example_store 0%nat 1%nat [Fin 6; Fin 7]
           [Fin (1 # 100); Fin (1 # 10)] (constant_sfh 0)
           (delta_constant (1 # 100)) (Fin 5) [(0, 5500000)%Z]).
  - reflexivity.
  - discriminate.
  - reflexivity.
  - discriminate.
  - reflexivity.
  - vm_compute. reflexivity.
Defined.




(** X14, an instance: a file name next to both arrays with units. *)
Lemma Template_filename_unimplemented_witness :
  exists w',
    Agn.Template__init__ unit unit plain_EmissionModel__init__
      plain_Sed__init__ plain_bolometric_luminosity "template"
      (Some "agn.txt"%string)
      (with_units "angstrom" [Fin 1; Fin 2])
      (with_units "erg/s/Hz" [Fin 3; Fin 5]) (Fin 0) tt fresh_world
    = Raise UnimplementedFunctionality w' /\
    Agn.seds unit w' = Agn.seds unit fresh_world /\
    Agn.sed unit (Agn.self unit w') = Agn.sed unit (Agn.self unit fresh_world) /\
    Agn._is_template unit (Agn.self unit w')
    = Agn._is_template unit (Agn.self unit fresh_world).
Proof.
  apply (Template_filename_unimplemented unit unit
           plain_EmissionModel__init__ plain_Sed__init__
           plain_bolometric_luminosity "template" (Some "agn.txt"%string)
           (with_units "angstrom" [Fin 1; Fin 2])
           (with_units "erg/s/Hz" [Fin 3; Fin 5]) (Fin 0) tt fresh_world tt).
  - reflexivity.
  - reflexivity.
  - discriminate.
  - discriminate.
Defined.

(** X15, an instance: [lnu = [3, 5]], of bolometric luminosity 8. *)
Lemma Template_normalised_witness :
  Agn.Template__init__ unit unit plain_EmissionModel__init__
    plain_Sed__init__ plain_bolometric_luminosity "template" None
    (with_units "angstrom" [Fin 1; Fin 2])
    (with_units "erg/s/Hz" [Fin 3; Fin 5]) (Fin 0) tt fresh_world
  = Ok tt
      (Agn.MkWorld unit
         (Agn.MkTemplate unit (Some tt) (Some 0%nat)
            (Some (Agn.MkUnytQuantity (Fin 8) "erg/s")) (Some true))
         [Agn.MkSed (Agn.MkUnytArray [Fin 1; Fin 2] "angstrom")
            (Agn.MkUnytArray [fdiv (Fin 3) (Fin 8); fdiv (Fin 5) (Fin 8)]
               "erg/s/Hz")]).
Proof.
  apply (Template_normalised unit unit plain_EmissionModel__init__
           plain_Sed__init__ plain_bolometric_luminosity "template" None
           (Agn.MkUnytArray [Fin 1; Fin 2] "angstrom")
           (Agn.MkUnytArray [Fin 3; Fin 5] "erg/s/Hz") (Fin 0) tt
           fresh_world tt
           (Agn.MkSed (Agn.MkUnytArray [Fin 1; Fin 2] "angstrom")
              (Agn.MkUnytArray [Fin 3; Fin 5] "erg/s/Hz"))
           (Agn.MkUnytQuantity (Fin 8) "erg/s")).
  - reflexivity.
  - reflexivity.
  - reflexivity.
  - reflexivity.
Defined.

(** X16, an instance: the template built in the instance of X15. *)
Lemma Template_returns_only_if_witness :
  let w' :=
    Agn.MkWorld unit
      (Agn.MkTemplate unit (Some tt) (Some 0%nat)
         (Some (Agn.MkUnytQuantity (Fin 8) "erg/s")) (Some true))
      [Agn.MkSed (Agn.MkUnytArray [Fin 1; Fin 2] "angstrom")
         (Agn.MkUnytArray [fdiv (Fin 3) (Fin 8); fdiv (Fin 5) (Fin 8)]
            "erg/s/Hz")] in
  Agn.truthy None = false /\
  (exists a, with_units "angstrom" [Fin 1; Fin 2] = Agn.WithUnits a) /\
  (exists b, with_units "erg/s/Hz" [Fin 3; Fin 5] = Agn.WithUnits b) /\
  length (Agn.seds unit w') = S (length (Agn.seds unit fresh_world)) /\
  Agn.sed unit (Agn.self unit w')
  = Some (length (Agn.seds unit fresh_world)) /\
  Agn._is_template unit (Agn.self unit w') = Some true.
Proof.
  apply (Template_returns_only_if unit unit plain_EmissionModel__init__
           plain_Sed__init__ plain_bolometric_luminosity "template" None
           (with_units "angstrom" [Fin 1; Fin 2])
           (with_units "erg/s/Hz" [Fin 3; Fin 5]) (Fin 0) tt fresh_world).
  reflexivity.
Defined.
